(** * gn_work_log: the task state machine, interval accounting and store

    A shallow embedding of [src/gn_work_log/tasks.py] and of the parts of
    [src/gn_work_log/main.py] that look tasks up, apply lifecycle actions and
    scan for stale tasks.  Python objects that are mutated in place are
    modelled by explicit state passing; exceptions by a result type; the host
    clock, standard output and the backing file by a [World] record. *)

From Stdlib Require Import ZArith List String Ascii Bool Lia QArith.
From Stdlib Require Import DecimalString Permutation.
Import ListNotations.

Close Scope Q_scope.
Local Open Scope list_scope.
Local Open Scope string_scope.
Local Open Scope Z_scope.

(** ** Python runtime: exceptions, results, a state-and-exception monad *)

Module Py.

(** The exception classes the two modules raise, each with its message
    (for [KeyError] the missing key). *)
Inductive exn : Type :=
| RuntimeError (msg : string)
| TypeError (msg : string)
| LookupError (msg : string)
| KeyError (key : string)
| IndexError (msg : string)
| AttributeError (msg : string)
| ValueError (msg : string).

Inductive res (A : Type) : Type :=
| Ok (a : A)
| Raise (e : exn).
Arguments Ok {A} a.
Arguments Raise {A} e.

(** A computation over a mutable state [S].  When it raises, the state is
    the one reached at the [raise]: assignments made before it stay. *)
Definition M (S A : Type) : Type := S -> res A * S.

Definition ret {S A} (a : A) : M S A := fun s => (Ok a, s).

Definition bind {S A B} (m : M S A) (k : A -> M S B) : M S B :=
  fun s => match m s with
           | (Ok a, s') => k a s'
           | (Raise e, s') => (Raise e, s')
           end.

Definition raise {S A} (e : exn) : M S A := fun s => (Raise e, s).
Definition get {S} : M S S := fun s => (Ok s, s).
Definition modify {S} (f : S -> S) : M S unit := fun s => (Ok tt, f s).

(** Run a computation on the second component of a pair of states. *)
Definition lift_snd {X S A} (m : M S A) : M (X * S) A :=
  fun xs => match m (snd xs) with (r, s') => (r, (fst xs, s')) end.

(** [str.lower()] on the ASCII range. *)
Definition lower_ascii (c : ascii) : ascii :=
  let n := nat_of_ascii c in
  if (Nat.leb 65 n && Nat.leb n 90)%bool then ascii_of_nat (n + 32) else c.

Fixpoint lower (s : string) : string :=
  match s with
  | EmptyString => EmptyString
  | String c r => String (lower_ascii c) (lower r)
  end.

(** [a in b] for two [str]: [a] occurs in [b] as a contiguous run. *)
Fixpoint contains (a b : string) : bool :=
  if String.prefix a b then true
  else match b with
       | EmptyString => false
       | String _ r => contains a r
       end.

(** [str(n)] for an [int]. *)
Definition str_int (n : Z) : string := NilZero.string_of_int (Z.to_int n).

(** [", ".join(l)] *)
Fixpoint join (sep : string) (l : list string) : string :=
  match l with
  | [] => ""
  | [x] => x
  | x :: r => x ++ sep ++ join sep r
  end.

(** A [dict] with [str] keys, in insertion order (keys are unique). *)
Definition dict (V : Type) : Type := list (string * V).

Fixpoint dict_get {V} (k : string) (d : dict V) : option V :=
  match d with
  | [] => None
  | (k', v) :: r => if String.eqb k' k then Some v else dict_get k r
  end.

(** [d[k] = v]: an existing key keeps its place, a new one goes last. *)
Fixpoint dict_set {V} (k : string) (v : V) (d : dict V) : dict V :=
  match d with
  | [] => [(k, v)]
  | (k', v') :: r =>
      if String.eqb k' k then (k', v) :: r else (k', v') :: dict_set k v r
  end.

(** [l[-1]] when [l] is not empty. *)
Definition last_opt {A} (l : list A) : option A :=
  match rev l with
  | [] => None
  | x :: _ => Some x
  end.

(** A [for] loop that threads an accumulator and stops at the first
    exception. *)
Fixpoint for_each {S A B} (body : A -> B -> M S A) (l : list B) (a : A)
  : M S A :=
  match l with
  | [] => ret a
  | x :: r => bind (body a x) (for_each body r)
  end.

End Py.

Import Py.

Declare Scope py_scope.
Delimit Scope py_scope with py.
Notation "x <- m ;; k" := (bind m (fun x => k))
  (at level 61, m at next level, right associativity) : py_scope.
Notation "m ;;; k" := (bind m (fun _ => k))
  (at level 61, right associativity) : py_scope.

(** ** [datetime]: the part of the standard module the program uses *)

Module datetime.

Record date : Type := mkdate { d_year : Z; d_month : Z; d_day : Z }.

(** An aware [datetime] in UTC (every instant of the program is built with
    [timezone.utc]). *)
Record t : Type := mk {
  year : Z; month : Z; day : Z;
  hour : Z; minute : Z; second : Z; microsecond : Z
}.

Record timedelta : Type := mkdelta {
  days : Z; seconds : Z; microseconds : Z
}.

Definition is_leap (y : Z) : bool :=
  (y mod 4 =? 0) && (negb (y mod 100 =? 0) || (y mod 400 =? 0)).

Definition days_in_month (y m : Z) : Z :=
  match m with
  | 1 => 31 | 2 => if is_leap y then 29 else 28 | 3 => 31 | 4 => 30
  | 5 => 31 | 6 => 30 | 7 => 31 | 8 => 31 | 9 => 30 | 10 => 31
  | 11 => 30 | 12 => 31 | _ => 0
  end.

Definition days_before_year (y : Z) : Z :=
  let p := y - 1 in p * 365 + p / 4 - p / 100 + p / 400.

Definition days_before_month (y m : Z) : Z :=
  fold_right Z.add 0
    (map (days_in_month y) (map Z.of_nat (seq 1 (Z.to_nat (m - 1))))).

Definition toordinal (x : t) : Z :=
  days_before_year (year x) + days_before_month (year x) (month x) + day x.

(** The ranges the [datetime] constructor enforces. *)
Definition valid (x : t) : bool :=
  (1 <=? year x) && (year x <=? 9999) &&
  (1 <=? month x) && (month x <=? 12) &&
  (1 <=? day x) && (day x <=? days_in_month (year x) (month x)) &&
  (0 <=? hour x) && (hour x <? 24) &&
  (0 <=? minute x) && (minute x <? 60) &&
  (0 <=? second x) && (second x <? 60) &&
  (0 <=? microsecond x) && (microsecond x <? 1000000).

(** [x.date()] *)
Definition date_of (x : t) : date := mkdate (year x) (month x) (day x).

Definition date_eqb (a b : date) : bool :=
  (d_year a =? d_year b) && (d_month a =? d_month b) && (d_day a =? d_day b).

(** [timedelta(days, seconds, microseconds)]: the constructor normalises
    so that [0 <= seconds < 86400] and [0 <= microseconds < 10**6]. *)
Definition timedelta_new (d s us : Z) : timedelta :=
  let s' := s + us / 1000000 in
  mkdelta (d + s' / 86400) (s' mod 86400) (us mod 1000000).

Definition secs_of_day (x : t) : Z :=
  second x + minute x * 60 + hour x * 3600.

(** [a - b] for two aware datetimes in the same zone. *)
Definition sub (a b : t) : timedelta :=
  timedelta_new (toordinal a - toordinal b)
                (secs_of_day a - secs_of_day b)
                (microsecond a - microsecond b).

(** Microseconds since the start of year 1: the order on instants. *)
Definition to_us (x : t) : Z :=
  ((toordinal x * 86400) + secs_of_day x) * 1000000 + microsecond x.

Definition leb (a b : t) : bool := to_us a <=? to_us b.

(** *** Formatting and parsing with ["%Y-%m-%dT%H:%M"] *)

Definition digit_char (n : Z) : ascii := ascii_of_nat (48 + Z.to_nat n).

Definition pad2 (n : Z) : string :=
  String (digit_char (n / 10 mod 10)) (String (digit_char (n mod 10)) "").

Definition pad4 (n : Z) : string :=
  String (digit_char (n / 1000 mod 10))
    (String (digit_char (n / 100 mod 10)) (pad2 n)).

(** [x.strftime("%Y-%m-%dT%H:%M")]; the year is written with four digits
    (what every platform does for years from 1000 on). *)
Definition strftime (x : t) : string :=
  pad4 (year x) ++ "-" ++ pad2 (month x) ++ "-" ++ pad2 (day x) ++ "T" ++
  pad2 (hour x) ++ ":" ++ pad2 (minute x).

(** [d.isoformat()] for a date. *)
Definition isoformat (d : date) : string :=
  pad4 (d_year d) ++ "-" ++ pad2 (d_month d) ++ "-" ++ pad2 (d_day d).

Definition digit_val (c : ascii) : option Z :=
  let n := Z.of_nat (nat_of_ascii c) in
  if (48 <=? n) && (n <=? 57) then Some (n - 48) else None.

(** [%Y] is the pattern [\d\d\d\d]. *)
Definition take_year (s : string) : option (Z * string) :=
  match s with
  | String a (String b (String c (String d r))) =>
      match digit_val a, digit_val b, digit_val c, digit_val d with
      | Some x, Some y, Some z, Some w =>
          Some (1000 * x + 100 * y + 10 * z + w, r)
      | _, _, _, _ => None
      end
  | _ => None
  end.

(** A one-or-two digit directive: the two-digit alternatives of its pattern
    come first, the single digit last; [two] and [one] say which values
    each form admits. *)
Definition take_field (two one : Z -> bool) (s : string)
  : option (Z * string) :=
  match s with
  | String a r =>
      match digit_val a with
      | Some x =>
          let single := if one x then Some (x, r) else None in
          match r with
          | String b r' =>
              match digit_val b with
              | Some y =>
                  if two (10 * x + y) then Some (10 * x + y, r') else single
              | None => single
              end
          | EmptyString => single
          end
      | None => None
      end
  | EmptyString => None
  end.

Definition between (lo hi v : Z) : bool := (lo <=? v) && (v <=? hi).

(** [%m] is [1[0-2]|0[1-9]|[1-9]]. *)
Definition take_month := take_field (between 1 12) (between 1 9).

(** [%d] is [3[01]|[12]\d|0[1-9]|[1-9]| [1-9]]: the last alternative is a
    blank followed by a digit. *)
Definition take_day (s : string) : option (Z * string) :=
  match s with
  | String " " (String b r) =>
      match digit_val b with
      | Some y => if between 1 9 y then Some (y, r) else None
      | None => None
      end
  | _ => take_field (between 1 31) (between 1 9) s
  end.

(** [%H] is [2[0-3]|[0-1]\d|\d]. *)
Definition take_hour := take_field (between 0 23) (between 0 9).

(** [%M] is [[0-5]\d|\d]. *)
Definition take_minute := take_field (between 0 59) (between 0 9).

(** A literal of the format; the pattern is compiled case-insensitively. *)
Definition take_lit (c : ascii) (s : string) : option string :=
  match s with
  | String a r => if Ascii.eqb (lower_ascii a) (lower_ascii c)
                  then Some r else None
  | EmptyString => None
  end.

(** [datetime.strptime(s, "%Y-%m-%dT%H:%M").replace(tzinfo=timezone.utc)];
    [None] stands for the [ValueError] of a string that does not match, of
    unconverted trailing data, or of a day that the month does not have. *)
Definition strptime (s : string) : option t :=
  match take_year s with
  | None => None
  | Some (y, s1) =>
  match take_lit "-" s1 with
  | None => None
  | Some s2 =>
  match take_month s2 with
  | None => None
  | Some (m, s3) =>
  match take_lit "-" s3 with
  | None => None
  | Some s4 =>
  match take_day s4 with
  | None => None
  | Some (d, s5) =>
  match take_lit "T" s5 with
  | None => None
  | Some s6 =>
  match take_hour s6 with
  | None => None
  | Some (h, s7) =>
  match take_lit ":" s7 with
  | None => None
  | Some s8 =>
  match take_minute s8 with
  | None => None
  | Some (mi, s9) =>
      match s9 with
      | EmptyString =>
          if (1 <=? y) && (d <=? days_in_month y m)
          then Some (mk y m d h mi 0 0) else None
      | String _ _ => None
      end
  end end end end end end end end end.

(** What a timestamp keeps of itself through the format. *)
Definition truncate_to_minute (x : t) : t :=
  mk (year x) (month x) (day x) (hour x) (minute x) 0 0.

(** [repr(x)]: trailing zero seconds and microseconds are left out. *)
Definition repr (x : t) : string :=
  let base := [year x; month x; day x; hour x; minute x] in
  let tail :=
    if microsecond x =? 0
    then (if second x =? 0 then [] else [second x])
    else [second x; microsecond x] in
  "datetime.datetime(" ++ join ", " (map str_int (base ++ tail)) ++
  ", tzinfo=datetime.timezone.utc)".

End datetime.

(** ** The serialized form of a task and of the backing file *)

Module toml.

(** One table of a day's array: the keys a task record carries.  [times],
    [notes] and [minutes] may be absent from a hand-written file; a pair of
    [times] stands for any two-element sequence of strings. *)
Record toml_dict : Type := mk_dict {
  k_uuid : string;
  k_description : string;
  k_status : string;
  k_times : option (list (string * string));
  k_notes : option (list string);
  k_minutes : option Q
}.

(** A top-level value: an array of task tables, or anything else, kept as
    it is. *)
Inductive value : Type :=
| Tasks (l : list toml_dict)
| Other (v : string).

Definition document : Type := dict value.

End toml.

(** ** The host: clock, standard output, backing file *)

Module host.

Record World : Type := mkWorld {
  clock : nat -> datetime.t;   (* the successive readings of the clock *)
  ticks : nat;                 (* how many were taken *)
  stdout : list string;        (* the lines printed *)
  file : toml.document         (* the content of the backing file *)
}.

(** [datetime.now(timezone.utc)] *)
Definition now_utc : M World datetime.t :=
  fun w => (Ok (clock w (ticks w)),
            mkWorld (clock w) (S (ticks w)) (stdout w) (file w)).

(** [print(line)] *)
Definition print (line : string) : M World unit :=
  modify (fun w => mkWorld (clock w) (ticks w) (stdout w ++ [line]) (file w)).

(** [toml.dump(data, f)] on the file opened for writing. *)
Definition dump (data : toml.document) : M World unit :=
  modify (fun w => mkWorld (clock w) (ticks w) (stdout w) data).

End host.

Import host.

(** ** [tasks.py] *)

Module tasks.

Module TaskStates.
Definition CREATED : string := "CREATED".
Definition RUNNING : string := "RUNNING".
Definition PAUSED : string := "PAUSED".
Definition COMPLETED : string := "COMPLETED".
End TaskStates.
Import TaskStates.

(** The [uuid] field holds a [uuid.UUID] for a task made by [add_task] and a
    plain [str] for a task read from the file; the two never compare equal. *)
Inductive uuid_value : Type :=
| UUID (canonical : string)
| UuidStr (s : string).

(** [str(u)] *)
Definition str_uuid (u : uuid_value) : string :=
  match u with UUID c => c | UuidStr s => s end.

Definition interval : Type := (datetime.t * option datetime.t)%type.

(** The members of [TaskStates] are strings, and a status read from the file
    is the string itself, so [status] is a string. *)
Record Task : Type := mkTask {
  uuid : uuid_value;
  description : string;
  status : string;
  times : list interval;
  notes : list string
}.

Definition method (A : Type) : Type := M (Task * World) A.

Definition self : method Task := fun s => (Ok (fst s), s).

Definition set_status (v : string) : method unit :=
  modify (fun s : Task * World =>
    let t := fst s in
    (mkTask (uuid t) (description t) v (times t) (notes t), snd s)).

Definition set_times (v : list interval) : method unit :=
  modify (fun s : Task * World =>
    let t := fst s in
    (mkTask (uuid t) (description t) (status t) v (notes t), snd s)).

Definition set_notes (v : list string) : method unit :=
  modify (fun s : Task * World =>
    let t := fst s in
    (mkTask (uuid t) (description t) (status t) (times t) v, snd s)).

Definition repr_end (e : option datetime.t) : string :=
  match e with None => "None" | Some x => datetime.repr x end.

(** [str(self.times)] *)
Definition repr_times (l : list interval) : string :=
  "[" ++ join ", "
    (map (fun iv : interval =>
            "(" ++ datetime.repr (fst iv) ++ ", " ++ repr_end (snd iv) ++ ")")
         l) ++ "]".

Definition same_day_msg : string :=
  "We expect all end dates to happen in the same day".

(** The body of the loop of [minutes]. *)
Definition minutes_body (seconds : Z) (iv : interval) : M World Z :=
  let (start, end_) := iv in
  (end' <- match end_ with
           | None => now_utc
           | Some e => ret e
           end ;;
   if negb (datetime.date_eqb (datetime.date_of end') (datetime.date_of start))
   then raise (RuntimeError same_day_msg)
   else ret (seconds + datetime.seconds (datetime.sub end' start)))%py.

(** [Task.minutes]; the quotient [seconds / 60] is kept as the fraction. *)
Definition minutes : method Q :=
  (t <- self ;;
   seconds <- lift_snd (for_each minutes_body (times t) 0) ;;
   ret (seconds # 60)%Q)%py.

Definition start : method unit :=
  (t <- self ;;
   (if String.eqb (status t) CREATED || String.eqb (status t) PAUSED
    then set_status RUNNING else ret tt) ;;;
   now <- lift_snd now_utc ;;
   t <- self ;;
   match last_opt (times t) with
   | Some (_, None) =>
       raise (TypeError (str_uuid (uuid t) ++ " has incorrect times: " ++
                         repr_times (times t)))
   | _ => ret tt
   end ;;;
   set_times (times t ++ [(now, None)]))%py.

Definition pause : method unit :=
  (t <- self ;;
   if negb (String.eqb (status t) RUNNING)
   then lift_snd (print "Task is not running")
   else
     set_status PAUSED ;;;
     match last_opt (times t) with
     | None => raise (IndexError "list index out of range")
     | Some (prev_start, Some _) =>
         raise (TypeError (str_uuid (uuid t) ++
                           " Previous time had an actual value: " ++
                           repr_times (times t)))
     | Some (prev_start, None) =>
         now <- lift_snd now_utc ;;
         set_times (removelast (times t) ++ [(prev_start, Some now)])
     end)%py.

Definition complete : method unit :=
  (t <- self ;;
   if negb (String.eqb (status t) RUNNING)
   then lift_snd (print "Task is not running")
   else
     set_status COMPLETED ;;;
     match last_opt (times t) with
     | None => raise (IndexError "list index out of range")
     | Some (prev_start, Some _) =>
         raise (TypeError (str_uuid (uuid t) ++
                           " Previous time had an actual value: " ++
                           repr_times (times t)))
     | Some (prev_start, None) =>
         now <- lift_snd now_utc ;;
         set_times (removelast (times t) ++ [(prev_start, Some now)])
     end)%py.

Definition add_note (note : string) : method unit :=
  (t <- self ;; set_notes (notes t ++ [note]))%py.

Module TomlHelper.
Import toml.

Definition bad_time (s : string) : exn :=
  ValueError ("time data '" ++ s ++
              "' does not match format '%Y-%m-%dT%H:%M'").

Definition parse_time (s : string) : res datetime.t :=
  match datetime.strptime s with
  | Some x => Ok x
  | None => Raise (bad_time s)
  end.

(** One round of the loop of [deserialize]. *)
Definition parse_pair (p : string * string) : res interval :=
  match parse_time (fst p) with
  | Raise e => Raise e
  | Ok x =>
      if String.eqb (lower (snd p)) "none" then Ok (x, None)
      else match parse_time (snd p) with
           | Raise e => Raise e
           | Ok y => Ok (x, Some y)
           end
  end.

Fixpoint parse_times (l : list (string * string)) : res (list interval) :=
  match l with
  | [] => Ok []
  | p :: r =>
      match parse_pair p with
      | Raise e => Raise e
      | Ok iv => match parse_times r with
                 | Raise e => Raise e
                 | Ok ivs => Ok (iv :: ivs)
                 end
      end
  end.

(** [deserialize]: an absent [times] is the empty list, [minutes] is
    dropped, an absent [notes] takes the default of the dataclass. *)
Definition deserialize (d : toml_dict) : res Task :=
  match parse_times (match k_times d with Some l => l | None => [] end) with
  | Raise e => Raise e
  | Ok ts =>
      Ok (mkTask (UuidStr (k_uuid d)) (k_description d) (k_status d) ts
                 (match k_notes d with Some n => n | None => [] end))
  end.

Definition format_pair (iv : interval) : string * string :=
  (datetime.strftime (fst iv),
   match snd iv with
   | None => "None"                       (* str(None) *)
   | Some y => datetime.strftime y
   end).

(** The dictionary [bare_bones] of [serialize]. *)
Definition bare_bones (task : Task) : toml_dict :=
  mk_dict (str_uuid (uuid task)) (description task) (status task)
          (Some (map format_pair (times task))) (Some (notes task)) None.

Definition serialize (task : Task) (with_minutes : bool)
  : M World toml_dict :=
  if with_minutes
  then fun w =>
         match minutes (task, w) with
         | (Ok m, (_, w')) =>
             let b := bare_bones task in
             (Ok (mk_dict (k_uuid b) (k_description b) (k_status b)
                          (k_times b) (k_notes b) (Some m)), w')
         | (Raise e, (_, w')) => (Raise e, w')
         end
  else ret (bare_bones task).

End TomlHelper.

End tasks.

(** ** [main.py]: the document, task lookup, actions and the error scan *)

Module main.
Import tasks toml.

Inductive Actions : Type := START | PAUSE | COMPLETE | NOTE.

(** [TomlDocument]: the parsed file.  [tasks_data] maps a date key to the
    day's tasks; [other_data] holds every other top-level key. *)
Record TomlDocument : Type := mkDoc {
  working_date : datetime.date;
  other_data : dict string;
  tasks_data : dict (list Task)
}.

Definition doc_method (A : Type) : Type := M (TomlDocument * World) A.

Definition this : doc_method TomlDocument := fun s => (Ok (fst s), s).

Definition set_tasks_data (v : dict (list Task)) : doc_method unit :=
  modify (fun s : TomlDocument * World =>
    (mkDoc (working_date (fst s)) (other_data (fst s)) v, snd s)).

(** [self.write()] *)
Definition write : doc_method unit :=
  (doc <- this ;;
   let serialized_data :=
     fold_left
       (fun acc (kv : string * list Task) =>
          dict_set (fst kv) (Tasks (map TomlHelper.bare_bones (snd kv))) acc)
       (tasks_data doc)
       (map (fun kv : string * string => (fst kv, Other (snd kv)))
            (other_data doc)) in
   lift_snd (dump serialized_data))%py.

(** The position of the first element that satisfies [p]. *)
Fixpoint index_where {A} (p : A -> bool) (l : list A) : option nat :=
  match l with
  | [] => None
  | x :: r => if p x then Some O
              else match index_where p r with
                   | Some i => Some (S i)
                   | None => None
                   end
  end.

Fixpoint list_set {A} (i : nat) (v : A) (l : list A) : list A :=
  match l, i with
  | [], _ => []
  | _ :: r, O => v :: r
  | x :: r, S j => x :: list_set j v r
  end.

(** Call a method on the task object that sits at position [i] of the list
    under [key]: the task is mutated where it is, also when the method
    raises. *)
Definition on_task {A} (key : string) (i : nat) (m : method A)
  : doc_method A :=
  fun s =>
    let doc := fst s in
    match dict_get key (tasks_data doc) with
    | None => (Raise (KeyError key), s)
    | Some l =>
        match nth_error l i with
        | None => (Raise (IndexError "list index out of range"), s)
        | Some t =>
            match m (t, snd s) with
            | (r, (t', w')) =>
                (r, (mkDoc (working_date doc) (other_data doc)
                           (dict_set key (list_set i t' l) (tasks_data doc)),
                     w'))
            end
        end
    end.

Definition matches (fragment : string) (x : Task) : bool :=
  contains fragment (str_uuid (uuid x)).

Definition no_tasks_msg (fragment : string) : string :=
  "No tasks found. Try to use the correct uuid. Used " ++ fragment.

Definition many_tasks_msg (fragment : string) : string :=
  "More than 1 task found. Try to add more text to your uuid. Used " ++
  fragment.

(** Lines 152-161 of [update_task]: the tasks of the day whose identifier
    contains the fragment, and the choice of the only one. *)
Definition relevant_task (fragment : string) (today_tasks : list Task)
  : res Task :=
  let relevant_tasks := filter (matches fragment) today_tasks in
  match relevant_tasks with
  | [] => Raise (LookupError (no_tasks_msg fragment))
  | [x] => Ok x
  | _ :: _ :: _ => Raise (LookupError (many_tasks_msg fragment))
  end.

Definition str_opt (note : option string) : string :=
  match note with None => "None" | Some s => s end.

(** [not note] *)
Definition falsy (note : option string) : bool :=
  match note with None => true | Some s => String.eqb s "" end.

Definition update_task (fragment : string) (action : Actions)
                       (note : option string) : doc_method unit :=
  (doc <- this ;;
   let working_key := datetime.isoformat (working_date doc) in
   match dict_get working_key (tasks_data doc) with
   | None => raise (KeyError working_key)
   | Some today_tasks =>
       match relevant_task fragment today_tasks with
       | Raise e => raise e
       | Ok _ =>
           let i := match index_where (matches fragment) today_tasks with
                    | Some i => i | None => O end in
           match action with
           | START => on_task working_key i start
           | PAUSE => on_task working_key i pause
           | COMPLETE => on_task working_key i complete
           | NOTE =>
               if falsy note
               then raise (AttributeError
                             ("Expected valid note but got " ++ str_opt note))
               else on_task working_key i (add_note (str_opt note))
           end ;;;
           write
       end
   end)%py.

(** [Task] defines [terminal_report] and [terminal_report_with_uuid] but no
    [report]: looking the attribute up raises. *)
Definition report : method string :=
  raise (AttributeError "'Task' object has no attribute 'report'").

(** The first loop of [errors]: the dictionary of the stale tasks. *)
Definition collect_errors (today_key : string) (data : dict (list Task))
  : dict (list Task) :=
  fold_left
    (fun errors (kv : string * list Task) =>
       let (date, ts) := kv in
       if String.eqb date today_key then errors
       else
         let error_tasks :=
           filter (fun t => negb (String.eqb (status t) TaskStates.COMPLETED))
                  ts in
         match error_tasks with
         | [] => errors
         | _ :: _ => dict_set date error_tasks errors
         end)
    data [].

Definition esc : string := String (ascii_of_nat 27) "".

(** The second loop of [errors], for one date. *)
Definition print_errors (u : unit) (kv : string * list Task) : M World unit :=
  let (date, errs) := kv in
  (print (esc ++ "[1;33m" ++ date ++ esc ++ "[0m") ;;;
   for_each (fun (_ : unit) (t : Task) =>
               fun w => match report (t, w) with
                        | (Ok line, (_, w')) => print line w'
                        | (Raise e, (_, w')) => (Raise e, w')
                        end)
            errs tt)%py.

Definition errors : doc_method unit :=
  (doc <- this ;;
   now <- lift_snd now_utc ;;
   let today_key := datetime.isoformat (datetime.date_of now) in
   let errors := collect_errors today_key (tasks_data doc) in
   match errors with
   | [] => lift_snd (print "No errors found")
   | _ :: _ => lift_snd (for_each print_errors errors tt)
   end)%py.

(** [add_task], given the identifier that [uuid.uuid4()] draws. *)
Definition add_task (fresh : string) (description : string)
                    (date : datetime.date) : doc_method unit :=
  (let task := mkTask (UUID fresh) description TaskStates.CREATED [] [] in
   let today_key := datetime.isoformat date in
   doc <- this ;;
   let l := match dict_get today_key (tasks_data doc) with
            | Some l => l | None => [] end in
   set_tasks_data (dict_set today_key (l ++ [task])%list (tasks_data doc)) ;;;
   write ;;;
   lift_snd (print ("task added: " ++ fresh)))%py.

End main.

(** ** [tasks.py], continued: the text that reports are made of *)

Module tasks_text.
Import tasks toml.

(** A character [str.isspace] accepts, on the ASCII range. *)
Definition is_space (c : ascii) : bool :=
  let n := nat_of_ascii c in
  (Nat.leb 9 n && Nat.leb n 13) || (Nat.leb 28 n && Nat.leb n 32).

Fixpoint lstrip (s : string) : string :=
  match s with
  | EmptyString => EmptyString
  | String c r => if is_space c then lstrip r else s
  end.

Fixpoint rstrip (s : string) : string :=
  match s with
  | EmptyString => EmptyString
  | String c r =>
      match rstrip r with
      | EmptyString => if is_space c then EmptyString else String c EmptyString
      | r' => String c r'
      end
  end.

(** [s.strip()] *)
Definition strip (s : string) : string := rstrip (lstrip s).

(** [s.split()]: the maximal runs of characters that are not white space;
    [cur] is the run being read. *)
Fixpoint split_from (cur s : string) : list string :=
  match s with
  | EmptyString => match cur with EmptyString => [] | _ => [cur] end
  | String c r =>
      if is_space c
      then match cur with
           | EmptyString => split_from EmptyString r
           | _ => cur :: split_from EmptyString r
           end
      else split_from (cur ++ String c EmptyString) r
  end.

Definition split (s : string) : list string := split_from EmptyString s.

Definition backslash : ascii := ascii_of_nat 92.

(** [word.replace("_", "\_")]: the replacement is a backslash and an
    underscore. *)
Fixpoint escape_underscores (word : string) : string :=
  match word with
  | EmptyString => EmptyString
  | String c r =>
      if Ascii.eqb c "_"
      then String backslash (String "_" (escape_underscores r))
      else String c (escape_underscores r)
  end.

(** The body of the loop of [tex_clean_up]. *)
Definition tex_word (word : string) : string :=
  if String.prefix "http" (strip word)
  then String backslash "href{" ++ word ++ "}{link}"
  else escape_underscores word.

Definition tex_clean_up (sentence : string) : string :=
  join " " (map tex_word (split (strip sentence))).

Definition newline : string := String (ascii_of_nat 10) "".


Section FloatText.

(** [str(x)] for the float [seconds / 60], given as the fraction: how a float
    is written is left to the host. *)
Variable str_float : Q -> string.

(** [Task.terminal_report] *)
Definition terminal_report : method string :=
  (t <- self ;;
   let notes_ := join newline (map (fun x => "  - " ++ x) (notes t)) in
   let notes_ := match notes_ with
                 | EmptyString => notes_
                 | _ => newline ++ notes_
                 end in
   let status_ := if negb (String.eqb (status t) TaskStates.COMPLETED)
                  then status t else "" in
   m <- minutes ;;
   ret ("- " ++ description t ++ ": " ++ str_float m ++ " " ++ status_ ++
        notes_))%py.

(** [Task.terminal_report_with_uuid] *)
Definition terminal_report_with_uuid : method string :=
  (t <- self ;;
   line <- terminal_report ;;
   ret (str_uuid (uuid t) ++ " " ++ line))%py.

End FloatText.

End tasks_text.

(** ** [main.py], continued: loading, reports, the command line *)

Module main_more.
Import tasks toml main tasks_text.




(** Calling a method that reads a task. *)
Definition call {A} (m : method A) (t : Task) : M World A :=
  fun w => match m (t, w) with (r, (_, w')) => (r, w') end.

(** *** The month of a report *)

(** [a <= b] and [a < b] on dates: year, then month, then day. *)
Definition date_leb (a b : datetime.date) : bool :=
  (datetime.d_year a <? datetime.d_year b) ||
  ((datetime.d_year a =? datetime.d_year b) &&
   ((datetime.d_month a <? datetime.d_month b) ||
    ((datetime.d_month a =? datetime.d_month b) &&
     (datetime.d_day a <=? datetime.d_day b)))).

Definition date_ltb (a b : datetime.date) : bool := negb (date_leb b a).

(** [d + relativedelta(months=1)]: the month after, the day cut to the
    length of that month; [None] is the [ValueError] of a year past 9999. *)
Definition plus_one_month (d : datetime.date) : option datetime.date :=
  let month := datetime.d_month d + 1 in
  let year := if 12 <? month then datetime.d_year d + 1 else datetime.d_year d in
  let month := if 12 <? month then month - 12 else month in
  let day := Z.min (datetime.days_in_month year month) (datetime.d_day d) in
  if 9999 <? year then None else Some (datetime.mkdate year month day).

(** The test of [report_monthly] and [monthly_pdf] on a date of the store:
    [start <= iso_date < end]. *)
Definition in_window (start end_ iso_date : datetime.date) : bool :=
  date_leb start iso_date && date_ltb iso_date end_.

(** [start], the first of the working month. *)
Definition month_start (working_date : datetime.date) : datetime.date :=
  datetime.mkdate (datetime.d_year working_date)
                  (datetime.d_month working_date) 1.

(** The test with [start] and [end] as the two reports compute them, [end]
    one month after [start]. *)
Definition in_working_month (working_date iso_date : datetime.date)
  : option bool :=
  match plus_one_month (month_start working_date) with
  | None => None
  | Some end_ => Some (in_window (month_start working_date) end_ iso_date)
  end.

(** *** The daily report *)

Inductive report_exn : Type :=
| Raised (e : exn)
| NotImplementedError (msg : string).

Inductive report_res : Type :=
| Returned
| Failed (e : report_exn).

Definition quote : string := String (ascii_of_nat 34) "".

Section Reports.

Variable str_float : Q -> string.

(** The line of the total for the sum of these minutes, taken in order:
    [f"Total time: {total_time // 60} Hrs { total_time % 60 } minutes"] once
    [total_time] is a float. *)
Variable float_total : list Q -> string.

(** [json.dumps] on a list of serialized tasks. *)
Variable json_dumps : list toml_dict -> string.

(** The line of the total; with no task [total_time] is still the integer
    0. *)
Definition total_line (ms : list Q) : string :=
  match ms with
  | [] => "Total time: 0 Hrs 0 minutes"
  | _ :: _ => float_total ms
  end.

Definition report_daily_json (doc : TomlDocument) (w : World)
  : report_res * World :=
  match dict_get (datetime.isoformat (working_date doc)) (tasks_data doc) with
  | None => (Returned, snd (print (quote ++ "No tasks found" ++ quote) w))
  | Some corresponding_tasks =>
      (Returned,
       snd (print (json_dumps (map TomlHelper.bare_bones corresponding_tasks))
                  w))
  end.

(** The loop of [report_daily], from the minutes summed so far. *)
Fixpoint report_lines (output_format : string) (l : list Task)
                      (ms : list Q) (w : World)
  : report_res * list Q * World :=
  match l with
  | [] => (Returned, ms, w)
  | t :: r =>
      let printed_ :=
        if String.eqb output_format "email"
        then match call (terminal_report str_float) t w with
             | (Ok line, w') => (Returned, snd (print line w'))
             | (Raise e, w') => (Failed (Raised e), w')
             end
        else if String.eqb output_format "terminal"
        then match call (terminal_report_with_uuid str_float) t w with
             | (Ok line, w') => (Returned, snd (print line w'))
             | (Raise e, w') => (Failed (Raised e), w')
             end
        else (Failed (NotImplementedError
                        ("Output format: " ++ output_format ++
                         " not supported")), w) in
      match printed_ with
      | (Failed e, w') => (Failed e, ms, w')
      | (Returned, w') =>
          match call minutes t w' with
          | (Raise e, w'') => (Failed (Raised e), ms, w'')
          | (Ok m, w'') => report_lines output_format r (ms ++ [m])%list w''
          end
      end
  end.

Definition report_daily (output_format : string) (doc : TomlDocument)
                        (w : World) : report_res * World :=
  if String.eqb output_format "json" then report_daily_json doc w
  else
    match dict_get (datetime.isoformat (working_date doc)) (tasks_data doc) with
    | None => (Returned, snd (print "No tasks found" w))
    | Some corresponding_tasks =>
        match report_lines output_format corresponding_tasks [] w with
        | (Failed e, _, w') => (Failed e, w')
        | (Returned, ms, w') => (Returned, snd (print (total_line ms) w'))
        end
    end.

End Reports.

(** *** The monthly report *)

Section Monthly.

(** [datetime.date.fromisoformat]: which strings it accepts depends on the
    version of the interpreter; [None] is its [ValueError]. *)
Variable fromisoformat : string -> option datetime.date.

Variable float_total : list Q -> string.

(** The inner loop of [report_monthly]: the minutes of a task are added, then
    its [report] is asked for. *)
Fixpoint month_tasks (ts : list Task) (ms : list Q) (w : World)
  : report_res * list Q * World :=
  match ts with
  | [] => (Returned, ms, w)
  | t :: r =>
      match call minutes t w with
      | (Raise e, w') => (Failed (Raised e), ms, w')
      | (Ok m, w') =>
          match call report t w' with
          | (Raise e, w'') => (Failed (Raised e), (ms ++ [m])%list, w'')
          | (Ok line, w'') =>
              month_tasks r (ms ++ [m])%list (snd (print line w''))
          end
      end
  end.

(** The outer loop, over the items of [tasks_data]. *)
Fixpoint month_items (start end_ : datetime.date)
                     (items : dict (list Task)) (ms : list Q) (w : World)
  : report_res * list Q * World :=
  match items with
  | [] => (Returned, ms, w)
  | (date_str, ts) :: r =>
      match fromisoformat date_str with
      | None =>
          (Failed (Raised (ValueError ("Invalid isoformat string: '" ++
                                       date_str ++ "'"))), ms, w)
      | Some iso_date =>
          if in_window start end_ iso_date
          then match month_tasks ts ms (snd (print date_str w)) with
               | (Returned, ms', w') => month_items start end_ r ms' w'
               | failed => failed
               end
          else month_items start end_ r ms w
      end
  end.

Definition report_monthly (doc : TomlDocument) (w : World)
  : report_res * World :=
  let start := month_start (working_date doc) in
  match plus_one_month start with
  | None => (Failed (Raised (ValueError "year 10000 is out of range")), w)
  | Some end_ =>
      match month_items start end_ (tasks_data doc) [] w with
      | (Failed e, _, w') => (Failed e, w')
      | (Returned, ms, w') =>
          (Returned,
           snd (print (match ms with
                       | [] => "Total time: 0 Hrs 0 minutes"
                       | _ :: _ => float_total ms
                       end) w'))
      end
  end.

End Monthly.

(** *** The command line: which action is applied *)

(** The options of [main] that choose the task and the action. *)
Record Args : Type := mkArgs {
  a_task : option string;
  a_action : option Actions;
  a_note : option string;
  a_start : bool;
  a_pause : bool;
  a_complete : bool
}.

(** Lines 285-294 of [main]. *)
Definition chosen_action (args : Args) : option Actions :=
  let _action := a_action args in
  let _action := if negb (falsy (a_note args)) then Some NOTE else _action in
  let _action := if a_start args then Some START else _action in
  let _action := if a_complete args then Some COMPLETE else _action in
  let _action := if a_pause args then Some PAUSE else _action in
  _action.

(** Lines 296-297 of [main]. *)
Definition apply_action (args : Args) : doc_method unit :=
  match chosen_action args with
  | Some _action =>
      if negb (falsy (a_task args))
      then update_task (str_opt (a_task args)) _action (a_note args)
      else ret tt
  | None => ret tt
  end.

End main_more.

(** ** Vocabulary of the statements *)

Module spec.
Import datetime tasks toml.

(** A timestamp the format can carry on every platform: valid, and with a
    four-digit year. *)
Definition printable (x : datetime.t) : bool := valid x && (1000 <=? year x).

Definition on_the_minute (x : datetime.t) : bool :=
  (second x =? 0) && (microsecond x =? 0).

Definition truncate_interval (iv : interval) : interval :=
  (truncate_to_minute (fst iv), option_map truncate_to_minute (snd iv)).

Definition printable_interval (iv : interval) : bool :=
  printable (fst iv) &&
  match snd iv with None => true | Some e => printable e end.

Definition interval_on_the_minute (iv : interval) : bool :=
  on_the_minute (fst iv) &&
  match snd iv with None => true | Some e => on_the_minute e end.

(** The task that reading back a written task gives: the identifier as
    its string, every timestamp cut to the minute. *)
Definition reloaded (task : Task) : Task :=
  mkTask (UuidStr (str_uuid (uuid task))) (description task) (status task)
         (map truncate_interval (times task)) (notes task).

Definition num2 (a b : ascii) : option Z :=
  match digit_val a, digit_val b with
  | Some x, Some y => Some (10 * x + y)
  | _, _ => None
  end.

(** The timestamp a string in the written form [YYYY-MM-DDTHH:MM] denotes:
    sixteen characters, zero-padded fields, capital [T]. *)
Definition read_stamp (s : string) : option datetime.t :=
  match s with
  | String y1 (String y2 (String y3 (String y4 (String c1
    (String m1 (String m2 (String c2 (String d1 (String d2 (String c3
    (String h1 (String h2 (String c4 (String n1 (String n2 EmptyString
    ))))))))))))))) =>
      if Ascii.eqb c1 "-" && Ascii.eqb c2 "-" && Ascii.eqb c3 "T" &&
         Ascii.eqb c4 ":"
      then
        match num2 y1 y2, num2 y3 y4, num2 m1 m2, num2 d1 d2,
              num2 h1 h2, num2 n1 n2 with
        | Some yh, Some yl, Some m, Some d, Some h, Some n =>
            Some (mk (100 * yh + yl) m d h n 0 0)
        | _, _, _, _, _, _ => None
        end
      else None
  | _ => None
  end.

Definition canonical_stamp (s : string) : bool :=
  match read_stamp s with
  | Some x => printable x
  | None => false
  end.

(** A well-formed record as [serialize] writes it: all five fields, no
    [minutes], timestamps in the written form, an open end spelled
    ["None"]. *)
Definition well_formed_pair (p : string * string) : bool :=
  canonical_stamp (fst p) &&
  (String.eqb (snd p) "None" || canonical_stamp (snd p)).

Definition well_formed_record (d : toml_dict) : bool :=
  match k_times d, k_notes d, k_minutes d with
  | Some l, Some _, None => forallb well_formed_pair l
  | _, _, _ => false
  end.

(** The same in the words of the specification, which spells the open end
    with the sentinel ["none"]. *)
Definition well_formed_pair_spec (p : string * string) : bool :=
  canonical_stamp (fst p) &&
  (String.eqb (snd p) "none" || canonical_stamp (snd p)).

Definition well_formed_record_spec (d : toml_dict) : bool :=
  match k_times d, k_notes d, k_minutes d with
  | Some l, Some _, None => forallb well_formed_pair_spec l
  | _, _, _ => false
  end.

(** Sample data for the concrete statements. *)
Definition at_ (h m sec : Z) : datetime.t := mk 2024 7 3 h m sec 0.

Definition world0 : World :=
  mkWorld (fun n => at_ 10 (Z.of_nat n) 30) 0 [] [].

Definition open_record : toml_dict :=
  mk_dict "0b5e" "Write report" "RUNNING"
          (Some [("2024-07-03T09:00", "none")]) (Some []) None.

Definition written_record : toml_dict :=
  mk_dict "0b5e" "Write report" "RUNNING"
          (Some [("2024-07-03T09:00", "2024-07-03T09:30");
                 ("2024-07-03T10:00", "None")])
          (Some ["first draft"]) None.

Definition live_task : Task :=
  mkTask (UuidStr "0b5e") "Write report" "RUNNING"
         [(at_ 9 0 12, Some (at_ 9 30 45)); (at_ 10 0 30, None)] [].

(** *** Interval accounting *)

(** The difference [e - s] in whole seconds. *)
Definition whole_seconds (e s : datetime.t) : Z :=
  (to_us e - to_us s) / 1000000.

Definition is_open (iv : interval) : bool :=
  match snd iv with None => true | Some _ => false end.

(** Each interval with the end the computation takes for it: its own, or
    for an open one the next reading of the clock, [k] readings having been
    taken before. *)
Fixpoint ends_or_now (clock : nat -> datetime.t) (k : nat)
                     (l : list interval) : list (datetime.t * datetime.t) :=
  match l with
  | [] => []
  | (s, Some e) :: r => (s, e) :: ends_or_now clock k r
  | (s, None) :: r => (s, clock k) :: ends_or_now clock (S k) r
  end.

(** How many intervals are open. *)
Definition opened (l : list interval) : nat := List.length (filter is_open l).

Definition resolved (task : Task) (w : World)
  : list (datetime.t * datetime.t) :=
  ends_or_now (clock w) (ticks w) (times task).

Definition same_day (se : datetime.t * datetime.t) : bool :=
  date_eqb (date_of (snd se)) (date_of (fst se)).

(** Both ends valid, on one calendar day, the end not before the start. *)
Definition in_order (se : datetime.t * datetime.t) : bool :=
  valid (fst se) && valid (snd se) && same_day se && leb (fst se) (snd se).

Definition sum_whole_seconds (l : list (datetime.t * datetime.t)) : Z :=
  fold_right (fun se acc => whole_seconds (snd se) (fst se) + acc) 0 l.

Definition sum_delta_seconds (l : list (datetime.t * datetime.t)) : Z :=
  fold_right (fun se acc => seconds (sub (snd se) (fst se)) + acc) 0 l.

(** The world after [n] more readings of the clock. *)
Definition after_reads (n : nat) (w : World) : World :=
  mkWorld (clock w) (n + ticks w) (stdout w) (file w).

Definition backwards_task : Task :=
  mkTask (UuidStr "7c21") "Review" "COMPLETED"
         [(at_ 9 0 30, Some (at_ 9 0 0))] [].

Definition rewound_task : Task :=
  mkTask (UuidStr "7c21") "Review" "COMPLETED"
         [(at_ 9 30 0, Some (at_ 9 10 0))] [].

(** A task started late on 2024-07-03 and still open, and a clock that
    stands in the first minutes of 2024-07-04. *)
Definition overnight_task : Task :=
  mkTask (UuidStr "7c21") "Review" "RUNNING"
         [(mk 2024 7 3 23 50 0 0, None)] [].

Definition after_midnight : World :=
  mkWorld (fun n => mk 2024 7 4 0 10 (Z.of_nat n) 0) 0 [] [].

Definition two_sittings : Task :=
  mkTask (UuidStr "7c21") "Review" "RUNNING"
         [(at_ 9 0 12, Some (at_ 9 30 45)); (at_ 9 59 15, None)] [].

(** *** The state machine *)

Definition is_closed (iv : interval) : bool := negb (is_open iv).

(** The invariant of the interval list: every interval but the last is
    closed. *)
Definition open_only_last (l : list interval) : bool :=
  forallb is_closed (removelast l).

Inductive operation : Type :=
| Start | Pause | Complete | AddNote (note : string).

Definition perform (o : operation) : method unit :=
  match o with
  | Start => start
  | Pause => pause
  | Complete => complete
  | AddNote note => add_note note
  end.

(** The task an operation leaves behind, whether it returned or raised. *)
Definition task_after {A} (m : method A) (task : Task) (w : World) : Task :=
  fst (snd (m (task, w))).

(** A task with its status and intervals replaced. *)
Definition moved (task : Task) (st : string) (ts : list interval) : Task :=
  mkTask (uuid task) (description task) st ts (notes task).

(** The status after the guard that opens [start]. *)
Definition entered (st : string) : string :=
  if String.eqb st TaskStates.CREATED || String.eqb st TaskStates.PAUSED
  then TaskStates.RUNNING else st.

(** The world after [line] was printed. *)
Definition printed (line : string) (w : World) : World :=
  mkWorld (clock w) (ticks w) (stdout w ++ [line]) (file w).

(** The outcome of [pause] and of [complete], which differ by the status
    they set: the result, the task and the world they leave. *)
Definition closing (new_status : string) (task : Task) (w : World)
  : res unit * (Task * World) :=
  if String.eqb (status task) TaskStates.RUNNING
  then match last_opt (times task) with
       | None =>
           (Raise (IndexError "list index out of range"),
            (moved task new_status (times task), w))
       | Some (_, Some _) =>
           (Raise (TypeError (str_uuid (uuid task) ++
                              " Previous time had an actual value: " ++
                              repr_times (times task))),
            (moved task new_status (times task), w))
       | Some (prev_start, None) =>
           (Ok tt,
            (moved task new_status
                   (removelast (times task) ++
                    [(prev_start, Some (clock w (ticks w)))]),
             after_reads 1 w))
       end
  else (Ok tt, (task, printed "Task is not running" w)).

(** The state after a sequence of operations, each run where the one
    before left the task, whether it returned or raised. *)
Fixpoint history (ops : list operation) (s : Task * World) : Task * World :=
  match ops with
  | [] => s
  | o :: r => history r (snd (perform o s))
  end.

Definition done_task : Task :=
  mkTask (UuidStr "7c21") "Review" "COMPLETED"
         [(at_ 9 0 0, Some (at_ 9 30 0))] [].

(** *** The store *)

Definition stale (t : Task) : bool :=
  negb (String.eqb (status t) TaskStates.COMPLETED).

(** What the scan is to flag under [date]: nothing for today, otherwise the
    tasks of that date that are not completed, when there are any. *)
Definition flagged (today_key date : string) (data : dict (list Task))
  : option (list Task) :=
  if String.eqb date today_key then None
  else match dict_get date data with
       | Some ts => match filter stale ts with
                    | [] => None
                    | e => Some e
                    end
       | None => None
       end.

(** The line [errors] prints before the tasks of a date. *)
Definition date_header (date : string) : string :=
  main.esc ++ "[1;33m" ++ date ++ main.esc ++ "[0m".

Definition left_running : Task :=
  mkTask (UuidStr "a1f0") "Fix login" "RUNNING"
         [(mk 2024 7 3 16 0 0 0, None)] [].

Definition finished : Task :=
  mkTask (UuidStr "a2c7") "Write report" "COMPLETED"
         [(mk 2024 7 3 9 0 0 0, Some (mk 2024 7 3 9 30 0 0))] [].

Definition fresh : Task :=
  mkTask (UuidStr "b9d4") "Plan sprint" "CREATED" [] [].

(** Two days of tasks, opened on 2024-07-04. *)
Definition two_days : main.TomlDocument :=
  main.mkDoc (mkdate 2024 7 4) [("version", "0.0.0")]
             [("2024-07-03", [left_running; finished]);
              ("2024-07-04", [fresh])].

(** The same store opened on a date it has no list for. *)
Definition no_list_today : main.TomlDocument :=
  main.mkDoc (mkdate 2024 7 5) [("version", "0.0.0")]
             (main.tasks_data two_days).

Definition yesterday : main.TomlDocument :=
  main.mkDoc (mkdate 2024 7 3) [("version", "0.0.0")]
             (main.tasks_data two_days).

Definition morning : World :=
  mkWorld (fun n => mk 2024 7 4 8 (Z.of_nat n) 0 0) 0 [] [].

End spec.

(** ** Vocabulary of the further statements *)

Module more.
Import datetime tasks toml main tasks_text main_more spec.

(** The dictionary [write] dumps. *)
Definition serialized_data (doc : TomlDocument) : toml.document :=
  fold_left
    (fun acc (kv : string * list Task) =>
       dict_set (fst kv) (Tasks (map TomlHelper.bare_bones (snd kv))) acc)
    (tasks_data doc)
    (map (fun kv : string * string => (fst kv, Other (snd kv)))
         (other_data doc)).

(** The world once [doc] is written to the file. *)
Definition written (doc : TomlDocument) (w : World) : World :=
  mkWorld (clock w) (ticks w) (stdout w) (serialized_data doc).

(** The document with the task at position [i] of the list [l] under [key]
    replaced. *)
Definition with_task (doc : TomlDocument) (key : string) (i : nat)
                     (t : Task) (l : list Task) : TomlDocument :=
  mkDoc (working_date doc) (other_data doc)
        (dict_set key (list_set i t l) (tasks_data doc)).

(** The method an action stands for. *)
Definition applied (action : Actions) (note : option string) : method unit :=
  match action with
  | START => start
  | PAUSE => pause
  | COMPLETE => complete
  | NOTE => add_note (str_opt note)
  end.

Definition finished_twice : Task :=
  mkTask (UuidStr "a2c7") "Write report" "COMPLETED"
         [(at_ 9 0 0, Some (at_ 9 30 0)); (at_ 11 0 0, Some (at_ 11 45 20))] [].

Definition finished_twice_swapped : Task :=
  mkTask (UuidStr "a2c7") "Write report" "COMPLETED"
         [(at_ 11 0 0, Some (at_ 11 45 20)); (at_ 9 0 0, Some (at_ 9 30 0))] [].
Definition valid_interval (iv : interval) : bool :=
  valid (fst iv) && match snd iv with None => true | Some e => valid e end.

Definition four_digit_years (iv : interval) : bool :=
  (1000 <=? year (fst iv)) &&
  match snd iv with None => true | Some e => 1000 <=? year e end.

(** A record as a hand may write it: fields without padding, a lower-case
    [t], the open end in capitals, no [notes]. *)
Definition loose_record : toml_dict :=
  mk_dict "0b5e" "Write report" "PAUSED"
          (Some [("2024-7-3t9:5", "2024-07-03T9:30"); ("2024-07- 3T10:00", "NONE")])
          None (Some (3 # 2)%Q).

Definition loose_task : Task :=
  mkTask (UuidStr "0b5e") "Write report" "PAUSED"
         [(mk 2024 7 3 9 5 0 0, Some (mk 2024 7 3 9 30 0 0));
          (mk 2024 7 3 10 0 0 0, None)] [].

(** No string occurs twice. *)
Fixpoint distinct (l : list string) : bool :=
  match l with
  | [] => true
  | k :: r => negb (existsb (String.eqb k) r) && distinct r
  end.



(** [--task b9 --start --note "call back"] *)
Definition noted_start : Args :=
  mkArgs (Some "b9") None (Some "call back") true false false.

(** The document [update_task] leaves, whatever the outcome. *)
Definition updated (fragment : string) (action : Actions)
           (note : option string) (doc : TomlDocument) (w : World)
  : TomlDocument :=
  fst (snd (update_task fragment action note (doc, w))).

(** The task [add_task] creates. *)
Definition created (fresh_id description : string) : Task :=
  mkTask (UUID fresh_id) description TaskStates.CREATED [] [].

(** The tasks of a date, none when the store has no list for it. *)
Definition tasks_on (key : string) (doc : TomlDocument) : list Task :=
  match dict_get key (tasks_data doc) with Some l => l | None => [] end.

Definition completed (t : Task) : bool :=
  String.eqb (status t) TaskStates.COMPLETED.

(** The date key of today, as [errors] computes it. *)
Definition today_key (w : World) : string :=
  isoformat (date_of (clock w (ticks w))).

(** Every date but [today] holds completed tasks only. *)
Definition nothing_stale (today : string) (data : dict (list Task)) : bool :=
  forallb (fun kv : string * list Task =>
             String.eqb (fst kv) today || forallb completed (snd kv)) data.

(** Two days of tasks with nothing left open on the first. *)
Definition tidy_days : TomlDocument :=
  mkDoc (mkdate 2024 7 4) [("version", "0.0.0")]
        [("2024-07-03", [finished]); ("2024-07-04", [fresh])].

Definition valid_date (d : date) : bool :=
  (1 <=? d_year d) && (d_year d <=? 9999) &&
  (1 <=? d_month d) && (d_month d <=? 12) &&
  (1 <=? d_day d) && (d_day d <=? days_in_month (d_year d) (d_month d)).

(** The ends of the closed intervals. *)
Definition closed_pairs (l : list interval) : list (datetime.t * datetime.t) :=
  flat_map (fun iv : interval =>
              match snd iv with Some e => [(fst iv, e)] | None => [] end) l.

(** A task with closed intervals only, none changing day. *)
Definition settled (t : Task) : bool :=
  forallb is_closed (times t) && forallb same_day (closed_pairs (times t)).

Definition settled_minutes (t : Task) : Q :=
  (sum_delta_seconds (closed_pairs (times t)) # 60)%Q.

Definition notes_text (t : Task) : string :=
  match join newline (map (fun x => "  - " ++ x) (notes t)) with
  | EmptyString => EmptyString
  | s => newline ++ s
  end.

(** The line of a task in the daily report, for its minutes [m]. *)
Definition report_line (str_float : Q -> string) (with_uuid : bool)
                       (t : Task) (m : Q) : string :=
  let line := "- " ++ description t ++ ": " ++ str_float m ++ " " ++
              (if completed t then "" else status t) ++ notes_text t in
  if with_uuid then str_uuid (uuid t) ++ " " ++ line else line.

(** The world after these lines were printed. *)
Definition printed_all (lines : list string) (w : World) : World :=
  mkWorld (clock w) (ticks w) (stdout w ++ lines) (file w).

(** A date in the form [YYYY-MM-DD], which every version of
    [fromisoformat] reads. *)
Definition read_date (s : string) : option datetime.date :=
  match s with
  | String y1 (String y2 (String y3 (String y4 (String c1
    (String m1 (String m2 (String c2 (String d1 (String d2 EmptyString
    ))))))))) =>
      if Ascii.eqb c1 "-" && Ascii.eqb c2 "-"
      then match num2 y1 y2, num2 y3 y4, num2 m1 m2, num2 d1 d2 with
           | Some yh, Some yl, Some m, Some d =>
               if valid_date (mkdate (100 * yh + yl) m d)
               then Some (mkdate (100 * yh + yl) m d) else None
           | _, _, _, _ => None
           end
      else None
  | _ => None
  end.

(** A month in which nothing was done, beside an earlier month with a
    task. *)
Definition quiet_month : TomlDocument :=
  mkDoc (mkdate 2024 7 4) [("version", "0.0.0")]
        [("2024-06-28", [finished]); ("2024-07-04", [])].


Fixpoint all_space (s : string) : bool :=
  match s with
  | EmptyString => true
  | String c r => is_space c && all_space r
  end.

(** Stand-ins for the host's rendering of floats, for the concrete
    statements: a fraction is shown as its numerator over 60. *)
Definition as_fraction (q : Q) : string := str_int (Qnum q) ++ "/60".

Definition as_total (ms : list Q) : string :=
  "Total time: " ++ join " + " (map as_fraction ms).

Definition as_json (l : list toml_dict) : string :=
  "[" ++ join ", " (map k_uuid l) ++ "]".

(** The tidy store opened on its first day. *)
Definition tidy_yesterday : TomlDocument :=
  mkDoc (mkdate 2024 7 3) [("version", "0.0.0")] (tasks_data tidy_days).







End more.

(** * Properties *)

(** ** Formatting and parsing timestamps *)

Ltac bool_to_prop H :=
  repeat (apply andb_true_iff in H; let H' := fresh "H" in destruct H as [H H']);
  repeat match goal with
         | B : (_ <=? _) = true |- _ => apply Z.leb_le in B
         | B : (_ <? _) = true |- _ => apply Z.ltb_lt in B
         | B : (_ =? _) = true |- _ => apply Z.eqb_eq in B
         end.


Section Digits.
Import datetime.

Lemma digit_val_digit_char (k : Z) :
  0 <= k <= 9 -> digit_val (digit_char k) = Some k.
Proof.
  intros Hk. unfold digit_val, digit_char.
  rewrite nat_ascii_embedding by lia.
  replace (Z.of_nat (48 + Z.to_nat k)) with (48 + k) by lia.
  replace (48 <=? 48 + k) with true by (symmetry; apply Z.leb_le; lia).
  replace (48 + k <=? 57) with true by (symmetry; apply Z.leb_le; lia).
  cbn [andb]. f_equal. lia.
Qed.

Lemma digit_char_cases (k : Z) :
  0 <= k <= 9 ->
  In (digit_char k) ["0"; "1"; "2"; "3"; "4"; "5"; "6"; "7"; "8"; "9"]%char.
Proof.
  intros Hk.
  assert (k = 0 \/ k = 1 \/ k = 2 \/ k = 3 \/ k = 4 \/ k = 5 \/ k = 6 \/
          k = 7 \/ k = 8 \/ k = 9) as H by lia.
  repeat (destruct H as [H | H]; [subst k; simpl; tauto |]).
  subst k; simpl; tauto.
Qed.

Lemma mod10_range (n : Z) : 0 <= n mod 10 <= 9.
Proof. pose proof (Z.mod_pos_bound n 10); lia. Qed.

Lemma take_year_pad4 (y : Z) (r : string) :
  0 <= y <= 9999 -> take_year (pad4 y ++ r) = Some (y, r).
Proof.
  intros Hy. unfold pad4, pad2. cbn [append]. unfold take_year.
  rewrite !digit_val_digit_char by apply mod10_range.
  do 2 f_equal.
  Z.div_mod_to_equations. lia.
Qed.

Lemma take_field_pad2 (two one : Z -> bool) (n : Z) (r : string) :
  0 <= n <= 99 -> two n = true ->
  take_field two one (pad2 n ++ r) = Some (n, r).
Proof.
  intros Hn Htwo. unfold pad2. cbn [append]. unfold take_field.
  rewrite !digit_val_digit_char by apply mod10_range.
  replace (10 * (n / 10 mod 10) + n mod 10) with n
    by (Z.div_mod_to_equations; lia).
  now rewrite Htwo.
Qed.

Lemma take_day_pad2 (n : Z) (r : string) :
  1 <= n <= 31 -> take_day (pad2 n ++ r) = Some (n, r).
Proof.
  intros Hn.
  assert (take_day (pad2 n ++ r) =
          take_field (between 1 31) (between 1 9) (pad2 n ++ r)) as ->.
  { unfold pad2. cbn [append].
    pose proof (digit_char_cases (n / 10 mod 10) (mod10_range _)) as Hc.
    cbn [In] in Hc.
    repeat (destruct Hc as [Hc | Hc]; [rewrite <- Hc; reflexivity |]).
    contradiction. }
  apply take_field_pad2; [lia |].
  unfold between. apply andb_true_iff; split; apply Z.leb_le; lia.
Qed.

Lemma days_in_month_le_31 (y m : Z) : days_in_month y m <= 31.
Proof.
  unfold days_in_month.
  destruct m as [| p | p]; [lia | | lia].
  repeat (destruct p as [p | p |]; try lia); destruct (is_leap y); lia.
Qed.

Lemma length_lower (s : string) : String.length (lower s) = String.length s.
Proof. induction s; simpl; congruence. Qed.

Lemma length_strftime (x : t) : String.length (strftime x) = 16%nat.
Proof. reflexivity. Qed.

Lemma strftime_not_none (x : t) :
  String.eqb (lower (strftime x)) "none" = false.
Proof.
  apply String.eqb_neq. intros H.
  apply (f_equal String.length) in H.
  rewrite length_lower, length_strftime in H. discriminate.
Qed.

Lemma strftime_truncate (x : t) :
  strftime (truncate_to_minute x) = strftime x.
Proof. reflexivity. Qed.

Lemma take_lit_same (c : ascii) (r : string) :
  take_lit c (String c r) = Some r.
Proof. unfold take_lit. now rewrite Ascii.eqb_refl. Qed.

Lemma between_true (lo hi v : Z) : lo <= v <= hi -> between lo hi v = true.
Proof.
  intros H. unfold between. apply andb_true_iff; split; apply Z.leb_le; lia.
Qed.

(** Parsing what was formatted gives the timestamp back without its
    seconds and microseconds. *)
Lemma strptime_strftime (x : t) :
  spec.printable x = true ->
  strptime (strftime x) = Some (truncate_to_minute x).
Proof.
  unfold spec.printable, valid. intros H. bool_to_prop H.
  pose proof (days_in_month_le_31 (year x) (month x)).
  unfold strftime, strptime, take_month, take_hour, take_minute.
  rewrite take_year_pad4 by lia.
  cbn [append]. rewrite take_lit_same.
  rewrite take_field_pad2 by (try apply between_true; lia).
  rewrite take_lit_same.
  rewrite take_day_pad2 by lia.
  rewrite take_lit_same.
  rewrite take_field_pad2 by (try apply between_true; lia).
  rewrite take_lit_same.
  change (pad2 (minute x)) with (pad2 (minute x) ++ "").
  rewrite take_field_pad2 by (try apply between_true; lia).
  replace (1 <=? year x) with true by (symmetry; apply Z.leb_le; lia).
  replace (day x <=? days_in_month (year x) (month x)) with true
    by (symmetry; apply Z.leb_le; lia).
  reflexivity.
Qed.

Lemma digit_val_inv (c : ascii) (v : Z) :
  digit_val c = Some v -> 0 <= v <= 9 /\ digit_char v = c.
Proof.
  unfold digit_val, digit_char.
  destruct ((48 <=? Z.of_nat (nat_of_ascii c)) &&
            (Z.of_nat (nat_of_ascii c) <=? 57)) eqn:E; [| discriminate].
  intros H. assert (v = Z.of_nat (nat_of_ascii c) - 48) as -> by congruence.
  clear H. bool_to_prop E. split; [lia |].
  replace (48 + Z.to_nat (Z.of_nat (nat_of_ascii c) - 48))%nat
    with (nat_of_ascii c) by lia.
  apply ascii_nat_embedding.
Qed.

Lemma num2_inv (a b : ascii) (n : Z) :
  spec.num2 a b = Some n -> 0 <= n <= 99 /\ pad2 n = String a (String b "").
Proof.
  unfold spec.num2.
  destruct (digit_val a) as [x |] eqn:Ea; [| discriminate].
  destruct (digit_val b) as [y |] eqn:Eb; [| discriminate].
  intros H. assert (n = 10 * x + y) as -> by congruence. clear H.
  apply digit_val_inv in Ea, Eb. destruct Ea as [Hx <-], Eb as [Hy <-].
  split; [lia |]. unfold pad2.
  replace ((10 * x + y) / 10 mod 10) with x by (Z.div_mod_to_equations; lia).
  replace ((10 * x + y) mod 10) with y by (Z.div_mod_to_equations; lia).
  reflexivity.
Qed.

Lemma pad4_split (hi lo : Z) :
  0 <= hi <= 99 -> 0 <= lo <= 99 -> pad4 (100 * hi + lo) = pad2 hi ++ pad2 lo.
Proof.
  intros Hhi Hlo. unfold pad4, pad2. cbn [append].
  replace ((100 * hi + lo) / 1000 mod 10) with (hi / 10 mod 10)
    by (Z.div_mod_to_equations; lia).
  replace ((100 * hi + lo) / 100 mod 10) with (hi mod 10)
    by (Z.div_mod_to_equations; lia).
  replace ((100 * hi + lo) / 10 mod 10) with (lo / 10 mod 10)
    by (Z.div_mod_to_equations; lia).
  replace ((100 * hi + lo) mod 10) with (lo mod 10)
    by (Z.div_mod_to_equations; lia).
  reflexivity.
Qed.

(** A string in the written form is the formatting of the timestamp it
    denotes. *)
Lemma read_stamp_strftime (s : string) (x : t) :
  spec.read_stamp s = Some x ->
  s = strftime x /\ truncate_to_minute x = x.
Proof.
  unfold spec.read_stamp.
  do 16 (destruct s as [| ?c s]; [discriminate |]).
  destruct s; [| discriminate].
  destruct (Ascii.eqb c3 "-" && Ascii.eqb c6 "-" && Ascii.eqb c9 "T" &&
            Ascii.eqb c12 ":") eqn:E; [| discriminate].
  repeat (apply andb_true_iff in E; let E' := fresh "E" in
          destruct E as [E E']).
  apply Ascii.eqb_eq in E, E0, E1, E2. subst c3 c6 c9 c12.
  destruct (spec.num2 c c0) as [yh |] eqn:N1; [| discriminate].
  destruct (spec.num2 c1 c2) as [yl |] eqn:N2; [| discriminate].
  destruct (spec.num2 c4 c5) as [m |] eqn:N3; [| discriminate].
  destruct (spec.num2 c7 c8) as [d |] eqn:N4; [| discriminate].
  destruct (spec.num2 c10 c11) as [h |] eqn:N5; [| discriminate].
  destruct (spec.num2 c13 c14) as [n |] eqn:N6; [| discriminate].
  intros H.
  assert (x = mk (100 * yh + yl) m d h n 0 0) as -> by congruence. clear H.
  apply num2_inv in N1, N2, N3, N4, N5, N6.
  destruct N1 as [? P1], N2 as [? P2], N3 as [? P3], N4 as [? P4],
           N5 as [? P5], N6 as [? P6].
  split; [| reflexivity].
  unfold strftime. cbn [year month day hour minute].
  rewrite pad4_split by lia.
  rewrite P1, P2, P3, P4, P5, P6. reflexivity.
Qed.

End Digits.

(** ** Serialization *)

Section Serialization.
Import datetime tasks toml tasks.TomlHelper spec.

Lemma parse_time_strftime (x : datetime.t) :
  printable x = true -> parse_time (strftime x) = Ok (truncate_to_minute x).
Proof. intros H. unfold parse_time. now rewrite strptime_strftime. Qed.

Lemma parse_pair_format (iv : interval) :
  printable_interval iv = true ->
  parse_pair (format_pair iv) = Ok (truncate_interval iv).
Proof.
  destruct iv as [x [y |]]; unfold printable_interval, parse_pair,
    format_pair, truncate_interval; cbn [fst snd option_map]; intros H.
  - apply andb_true_iff in H. destruct H as [Hx Hy].
    rewrite parse_time_strftime by assumption.
    rewrite strftime_not_none.
    now rewrite parse_time_strftime by assumption.
  - rewrite andb_true_r in H.
    now rewrite parse_time_strftime by assumption.
Qed.

Lemma parse_times_format (l : list interval) :
  forallb printable_interval l = true ->
  parse_times (map format_pair l) = Ok (map truncate_interval l).
Proof.
  induction l as [| iv l IH]; [reflexivity |].
  cbn [forallb map parse_times]. intros H.
  apply andb_true_iff in H. destruct H as [Hiv Hl].
  now rewrite parse_pair_format, IH.
Qed.

Lemma deserialize_bare_bones (task : Task) :
  forallb printable_interval (times task) = true ->
  deserialize (bare_bones task) = Ok (reloaded task).
Proof.
  intros H. unfold deserialize, bare_bones. cbn [k_times k_notes].
  now rewrite parse_times_format.
Qed.

Lemma truncate_fixed (x : datetime.t) :
  truncate_to_minute x = x <-> on_the_minute x = true.
Proof.
  unfold on_the_minute, truncate_to_minute. destruct x as [y m d h mi sc us].
  cbn [year month day hour minute second microsecond].
  rewrite andb_true_iff, !Z.eqb_eq. split.
  - intros [= <- <-]. now split.
  - intros [-> ->]. reflexivity.
Qed.

Lemma truncate_interval_fixed (iv : interval) :
  truncate_interval iv = iv <-> interval_on_the_minute iv = true.
Proof.
  destruct iv as [x [y |]]; unfold truncate_interval, interval_on_the_minute;
    cbn [fst snd option_map]; rewrite andb_true_iff, <- !truncate_fixed.
  - split.
    + intros [= Hx Hy]. now split.
    + intros [-> ->]. reflexivity.
  - split.
    + intros [= Hx]. now split.
    + intros [-> _]. reflexivity.
Qed.

Lemma map_fixed {A} (f : A -> A) (p : A -> bool) (l : list A) :
  (forall a, f a = a <-> p a = true) ->
  map f l = l <-> forallb p l = true.
Proof.
  intros Hfp. induction l as [| a l IH]; cbn [map forallb].
  - tauto.
  - rewrite andb_true_iff, <- IH, <- Hfp. split.
    + intros [= Ha Hl]. now split.
    + intros [-> ->]. reflexivity.
Qed.

(** C9.  Writing a task formats each timestamp without seconds and
    microseconds, so reading the written record back gives the task with
    every timestamp of its intervals cut to the minute (and its identifier
    as a string); the task itself comes back exactly when every timestamp
    already lies on the minute (and the identifier already is a string), so
    a task with an interval whose start or end carries seconds or
    microseconds, as the instants taken from the clock do, does not come
    back as it was. *)
Theorem reload_truncates_to_minute (task : Task) (w : World) :
  forallb printable_interval (times task) = true ->
  exists d,
    serialize task false w = (Ok d, w) /\
    deserialize d = Ok (reloaded task) /\
    (deserialize d = Ok task <->
     forallb interval_on_the_minute (times task) = true /\
     uuid task = UuidStr (str_uuid (uuid task))) /\
    (forall iv, In iv (times task) -> interval_on_the_minute iv = false ->
                deserialize d <> Ok task).
Proof.
  intros H. exists (bare_bones task). split; [reflexivity |].
  rewrite deserialize_bare_bones by assumption. split; [reflexivity |].
  assert (Ok (reloaded task) = Ok task <->
          forallb interval_on_the_minute (times task) = true /\
          uuid task = UuidStr (str_uuid (uuid task))) as K.
  { rewrite <- (map_fixed truncate_interval _ _ truncate_interval_fixed).
    unfold reloaded. destruct task as [u de st ts ns].
    cbn [uuid description status times notes]. split.
    - intros [= Hu Ht]. split; [assumption | now rewrite Hu].
    - intros [-> <-]. reflexivity. }
  split; [exact K |].
  intros iv Hin Hiv R. apply K in R. destruct R as [R _].
  rewrite forallb_forall in R. rewrite (R iv Hin) in Hiv. discriminate.
Qed.

Lemma reload_truncates_to_minute_witness :
  forallb printable_interval (times live_task) = true /\
  exists d,
    serialize live_task false world0 = (Ok d, world0) /\
    deserialize d = Ok (reloaded live_task) /\
    (deserialize d = Ok live_task <->
     forallb interval_on_the_minute (times live_task) = true /\
     uuid live_task = UuidStr (str_uuid (uuid live_task))) /\
    (forall iv, In iv (times live_task) ->
                interval_on_the_minute iv = false ->
                deserialize d <> Ok live_task).
Proof.
  split; [reflexivity |].
  apply (reload_truncates_to_minute live_task world0). reflexivity.
Defined.

Lemma parse_pair_well_formed (p : string * string) :
  well_formed_pair p = true ->
  exists iv, parse_pair p = Ok iv /\ format_pair iv = p.
Proof.
  destruct p as [a b]. unfold well_formed_pair, canonical_stamp.
  cbn [fst snd]. intros H. apply andb_true_iff in H. destruct H as [Ha Hb].
  destruct (read_stamp a) as [x |] eqn:Ra; [| discriminate].
  apply read_stamp_strftime in Ra. destruct Ra as [-> Tx].
  unfold parse_pair. cbn [fst snd].
  rewrite parse_time_strftime, Tx by assumption.
  destruct (String.eqb b "None") eqn:Eb.
  - apply String.eqb_eq in Eb. subst b. exists (x, None). now split.
  - cbn [orb] in Hb.
    destruct (read_stamp b) as [y |] eqn:Rb; [| discriminate].
    apply read_stamp_strftime in Rb. destruct Rb as [-> Ty].
    rewrite strftime_not_none, parse_time_strftime, Ty by assumption.
    exists (x, Some y). now split.
Qed.

Lemma parse_times_well_formed (l : list (string * string)) :
  forallb well_formed_pair l = true ->
  exists ts, parse_times l = Ok ts /\ map format_pair ts = l.
Proof.
  induction l as [| p l IH]; cbn [forallb parse_times]; intros H.
  - exists []. now split.
  - apply andb_true_iff in H. destruct H as [Hp Hl].
    destruct (parse_pair_well_formed p Hp) as [iv [-> <-]].
    destruct (IH Hl) as [ts [-> <-]].
    exists (iv :: ts). now split.
Qed.

(** C5, amended.  A well-formed record in the form [serialize] writes
    (identifier, description, status, a list of timestamp pairs in the
    zero-padded form with an open end spelled ["None"], notes) is read
    into a task that is written back as the same record. *)
Theorem written_record_round_trips (d : toml_dict) (w : World) :
  well_formed_record d = true ->
  exists task,
    deserialize d = Ok task /\ serialize task false w = (Ok d, w).
Proof.
  destruct d as [u de st [l |] [ns |] [m |]]; unfold well_formed_record;
    cbn [k_times k_notes k_minutes]; try discriminate.
  intros H. destruct (parse_times_well_formed l H) as [ts [P F]].
  unfold deserialize. cbn [k_times k_notes k_uuid k_description k_status].
  rewrite P. eexists. split; [reflexivity |].
  unfold serialize, ret, bare_bones.
  cbn [uuid description status times notes str_uuid]. now rewrite F.
Qed.

Lemma written_record_round_trips_witness :
  well_formed_record written_record = true /\
  exists task,
    deserialize written_record = Ok task /\
    serialize task false world0 = (Ok written_record, world0).
Proof.
  split; [reflexivity |].
  apply (written_record_round_trips written_record world0). reflexivity.
Defined.

(** C5 fails as stated: a record whose open end is the sentinel ["none"]
    is read into a task that is written back with ["None"]. *)
Lemma none_sentinel_is_rewritten :
  well_formed_record_spec open_record = true /\
  exists task d,
    deserialize open_record = Ok task /\
    serialize task false world0 = (Ok d, world0) /\
    k_times d = Some [("2024-07-03T09:00", "None")] /\
    d <> open_record.
Proof.
  split; [reflexivity |].
  eexists. eexists. split; [reflexivity |]. split; [reflexivity |].
  split; [reflexivity |]. discriminate.
Qed.

End Serialization.

(** ** Interval accounting *)

Section Accounting.
Import datetime tasks spec.

Lemma date_eqb_eq (a b : date) : date_eqb a b = true <-> a = b.
Proof.
  destruct a, b. unfold date_eqb. cbn [d_year d_month d_day].
  rewrite !andb_true_iff, !Z.eqb_eq. split.
  - intros [[-> ->] ->]. reflexivity.
  - intros [= -> -> ->]. tauto.
Qed.

Lemma same_day_toordinal (a b : datetime.t) :
  date_of a = date_of b -> toordinal a = toordinal b.
Proof. unfold date_of, toordinal. intros [= -> -> ->]. reflexivity. Qed.

(** The [seconds] field of a difference is the whole-second difference
    modulo one day. *)
Lemma seconds_sub (e s : datetime.t) :
  seconds (sub e s) = whole_seconds e s mod 86400.
Proof.
  unfold sub, timedelta_new, whole_seconds, to_us. cbn [seconds].
  replace ((toordinal e * 86400 + secs_of_day e) * 1000000 + microsecond e -
           ((toordinal s * 86400 + secs_of_day s) * 1000000 + microsecond s))
    with ((microsecond e - microsecond s) +
          ((toordinal e - toordinal s) * 86400 +
           (secs_of_day e - secs_of_day s)) * 1000000) by ring.
  rewrite Z.div_add by lia.
  replace ((microsecond e - microsecond s) / 1000000 +
           ((toordinal e - toordinal s) * 86400 +
            (secs_of_day e - secs_of_day s)))
    with (secs_of_day e - secs_of_day s +
          (microsecond e - microsecond s) / 1000000 +
          (toordinal e - toordinal s) * 86400) by ring.
  now rewrite Z.mod_add by lia.
Qed.

Lemma secs_of_day_range (x : datetime.t) :
  valid x = true ->
  0 <= secs_of_day x < 86400 /\ 0 <= microsecond x < 1000000.
Proof.
  unfold valid, secs_of_day. intros H. bool_to_prop H. lia.
Qed.

Lemma whole_seconds_in_order (se : datetime.t * datetime.t) :
  in_order se = true -> 0 <= whole_seconds (snd se) (fst se) < 86400.
Proof.
  destruct se as [s e]. unfold in_order, same_day, leb. cbn [fst snd].
  intros H. do 3 (apply andb_true_iff in H; destruct H as [H ?]).
  apply secs_of_day_range in H, H2.
  rewrite date_eqb_eq in H1. apply same_day_toordinal in H1.
  apply Z.leb_le in H0. unfold whole_seconds. unfold to_us in *.
  rewrite H1 in *.
  split.
  - apply Z.div_pos; lia.
  - apply Z.div_lt_upper_bound; lia.
Qed.

Lemma seconds_sub_in_order (se : datetime.t * datetime.t) :
  in_order se = true ->
  seconds (sub (snd se) (fst se)) = whole_seconds (snd se) (fst se).
Proof.
  intros H. rewrite seconds_sub.
  apply Z.mod_small. now apply whole_seconds_in_order.
Qed.

Lemma sum_delta_in_order (l : list (datetime.t * datetime.t)) :
  forallb in_order l = true -> sum_delta_seconds l = sum_whole_seconds l.
Proof.
  induction l as [| se l IH]; [reflexivity |].
  cbn [forallb]. intros H. apply andb_true_iff in H. destruct H as [Hse Hl].
  unfold sum_delta_seconds, sum_whole_seconds in *. cbn [fold_right].
  now rewrite seconds_sub_in_order, IH.
Qed.

Lemma in_order_same_day (l : list (datetime.t * datetime.t)) :
  forallb in_order l = true -> forallb same_day l = true.
Proof.
  induction l as [| se l IH]; [reflexivity |].
  cbn [forallb]. intros H. apply andb_true_iff in H. destruct H as [Hse Hl].
  rewrite IH by assumption. unfold in_order in Hse.
  do 2 (apply andb_true_iff in Hse; destruct Hse as [Hse ?]).
  now rewrite H0.
Qed.

Lemma after_reads_succ (n : nat) (w : World) :
  after_reads n (mkWorld (clock w) (S (ticks w)) (stdout w) (file w)) =
  after_reads (S n) w.
Proof. unfold after_reads. cbn. f_equal. lia. Qed.

Lemma after_reads_0 (w : World) : after_reads 0 w = w.
Proof. destruct w. reflexivity. Qed.

(** The loop of [minutes] when no interval changes day: every interval
    contributes the [seconds] of its difference, and the clock is read once
    per open interval. *)
Lemma minutes_loop_ok (l : list interval) :
  forall (acc : Z) (w : World),
    forallb same_day (ends_or_now (clock w) (ticks w) l) = true ->
    for_each minutes_body l acc w =
    (Ok (acc + sum_delta_seconds (ends_or_now (clock w) (ticks w) l)),
     after_reads (opened l) w).
Proof.
  induction l as [| [s [e |]] l IH]; intros acc w H.
  - cbn [for_each ends_or_now]. unfold ret, sum_delta_seconds, opened.
    cbn [fold_right filter List.length].
    now rewrite Z.add_0_r, after_reads_0.
  - cbn [ends_or_now forallb] in H. apply andb_true_iff in H.
    destruct H as [Hd Hl]. unfold same_day in Hd. cbn [fst snd] in Hd.
    cbn [for_each ends_or_now]. unfold bind at 1, minutes_body at 1.
    unfold bind at 1, ret at 1. rewrite Hd. cbn [negb]. unfold ret at 1.
    rewrite IH by assumption. unfold opened. cbn [filter is_open snd].
    unfold sum_delta_seconds. cbn [fold_right fst snd].
    do 2 f_equal. lia.
  - cbn [ends_or_now forallb] in H. apply andb_true_iff in H.
    destruct H as [Hd Hl]. unfold same_day in Hd. cbn [fst snd] in Hd.
    cbn [for_each ends_or_now]. unfold bind at 1, minutes_body at 1.
    unfold bind at 1, now_utc at 1. rewrite Hd. cbn [negb]. unfold ret at 1.
    rewrite IH by exact Hl. cbn [clock ticks]. rewrite after_reads_succ.
    unfold opened. cbn [filter is_open snd List.length].
    unfold sum_delta_seconds. cbn [fold_right fst snd].
    do 2 f_equal. lia.
Qed.

(** The loop raises as soon as it meets an interval that changes day. *)
Lemma minutes_loop_raises (l : list interval) :
  forall (acc : Z) (w : World),
    forallb same_day (ends_or_now (clock w) (ticks w) l) = false ->
    exists n, for_each minutes_body l acc w =
              (Raise (RuntimeError same_day_msg), after_reads n w).
Proof.
  induction l as [| [s [e |]] l IH]; intros acc w H.
  - discriminate.
  - cbn [ends_or_now forallb] in H. cbn [for_each].
    unfold bind at 1, minutes_body at 1. unfold bind at 1, ret at 1.
    unfold same_day at 1 in H. cbn [fst snd] in H.
    destruct (date_eqb (date_of e) (date_of s)); cbn [negb andb] in *.
    + unfold ret at 1. apply IH. exact H.
    + exists 0%nat. now rewrite after_reads_0.
  - cbn [ends_or_now forallb] in H. cbn [for_each].
    unfold bind at 1, minutes_body at 1. unfold bind at 1, now_utc at 1.
    unfold same_day at 1 in H. cbn [fst snd] in H.
    destruct (date_eqb (date_of (clock w (ticks w))) (date_of s));
      cbn [negb andb] in *.
    + unfold ret at 1.
      destruct (IH (acc + seconds (sub (clock w (ticks w)) s))
                   (mkWorld (clock w) (S (ticks w)) (stdout w) (file w)) H)
        as [n Hn].
      exists (S n). rewrite Hn. now rewrite after_reads_succ.
    + now exists 1%nat.
Qed.

Lemma minutes_run_ok (task : Task) (w : World) :
  forallb same_day (resolved task w) = true ->
  minutes (task, w) =
  (Ok (sum_delta_seconds (resolved task w) # 60)%Q,
   (task, after_reads (opened (times task)) w)).
Proof.
  intros H. unfold minutes, bind, self, lift_snd. cbn [fst snd].
  unfold resolved in *. now rewrite minutes_loop_ok by assumption.
Qed.

Lemma minutes_run_raises (task : Task) (w : World) :
  forallb same_day (resolved task w) = false ->
  exists n, minutes (task, w) =
            (Raise (RuntimeError same_day_msg), (task, after_reads n w)).
Proof.
  intros H. unfold minutes, bind, self, lift_snd. cbn [fst snd].
  destruct (minutes_loop_raises (times task) 0 w H) as [n ->].
  now exists n.
Qed.

(** C1, amended.  For a task in which every interval ends (an open one:
    at the instant the clock gives when the loop reaches it) on the calendar
    day of its start and not before its start, [minutes] leaves the task
    as it is and returns the sum over the intervals of the whole-second
    difference between that end and the start, divided by 60 and kept as a
    fraction. *)
Theorem minutes_sums_whole_seconds (task : Task) (w : World) :
  forallb in_order (resolved task w) = true ->
  minutes (task, w) =
  (Ok (sum_whole_seconds (resolved task w) # 60)%Q,
   (task, after_reads (opened (times task)) w)).
Proof.
  intros H. rewrite minutes_run_ok by now apply in_order_same_day.
  now rewrite sum_delta_in_order.
Qed.

Lemma minutes_sums_whole_seconds_witness :
  forallb in_order (resolved two_sittings world0) = true /\
  minutes (two_sittings, world0) =
  (Ok (1908 # 60)%Q, (two_sittings, after_reads 1 world0)).
Proof.
  split; [reflexivity |].
  exact (minutes_sums_whole_seconds two_sittings world0 eq_refl).
Defined.

(** C1 fails as stated: for an interval that ends 30 seconds before it
    starts, on the same day, the whole-second difference is -30 and
    [minutes] returns 86370 / 60. *)
Lemma backwards_interval_wraps :
  sum_whole_seconds (resolved backwards_task world0) = -30 /\
  minutes (backwards_task, world0) =
  (Ok (86370 # 60)%Q, (backwards_task, world0)).
Proof. split; reflexivity. Qed.

(** C6, amended.  [minutes] fails, with the [RuntimeError] of the same-day
    check and the task left as it is, exactly when some interval ends (an
    open one: at the instant the clock gives) on another calendar day than
    it starts; in every other case it returns a number. *)
Theorem minutes_fails_iff_day_differs (task : Task) (w : World) :
  (forallb same_day (resolved task w) = false <->
   exists w', minutes (task, w) =
              (Raise (RuntimeError same_day_msg), (task, w')))
  /\
  (forallb same_day (resolved task w) = true <->
   exists q w', minutes (task, w) = (Ok q, (task, w'))).
Proof.
  destruct (forallb same_day (resolved task w)) eqn:E.
  - pose proof (minutes_run_ok task w E) as R. split; split.
    + discriminate.
    + intros [w' H]. rewrite R in H. discriminate.
    + intros _. eauto.
    + reflexivity.
  - destruct (minutes_run_raises task w E) as [n R]. split; split.
    + intros _. eauto.
    + reflexivity.
    + discriminate.
    + intros [q [w' H]]. rewrite R in H. discriminate.
Qed.

Lemma minutes_fails_iff_day_differs_witness :
  forallb same_day (resolved overnight_task after_midnight) = false /\
  exists w', minutes (overnight_task, after_midnight) =
             (Raise (RuntimeError same_day_msg), (overnight_task, w')).
Proof.
  split; [reflexivity |].
  apply (proj1 (proj1 (minutes_fails_iff_day_differs
                         overnight_task after_midnight))).
  reflexivity.
Defined.

(** C6 fails as stated: an interval that ends twenty minutes before it
    starts, on the same day, raises nothing and is counted as 85200
    seconds. *)
Lemma earlier_end_same_day_no_failure :
  datetime.leb (at_ 9 30 0) (at_ 9 10 0) = false /\
  times rewound_task = [(at_ 9 30 0, Some (at_ 9 10 0))] /\
  minutes (rewound_task, world0) =
  (Ok (85200 # 60)%Q, (rewound_task, world0)).
Proof. repeat split; reflexivity. Qed.

End Accounting.

(** ** The state machine *)

Section StateMachine.
Import datetime tasks tasks.TaskStates spec.

Lemma dict_get_set_same {V} (k : string) (v : V) (d : dict V) :
  dict_get k (dict_set k v d) = Some v.
Proof.
  induction d as [| [k' v'] d IH]; cbn [dict_set dict_get].
  - now rewrite String.eqb_refl.
  - destruct (String.eqb k' k) eqn:K; cbn [dict_get]; now rewrite K.
Qed.

Lemma dict_get_set_other {V} (k k' : string) (v : V) (d : dict V) :
  k' <> k -> dict_get k (dict_set k' v d) = dict_get k d.
Proof.
  intros N. induction d as [| [k0 v0] d IH]; cbn [dict_set dict_get].
  - apply String.eqb_neq in N. now rewrite N.
  - destruct (String.eqb k0 k') eqn:K; cbn [dict_get].
    + apply String.eqb_eq in K. subst k0.
      apply String.eqb_neq in N. now rewrite N.
    + now rewrite IH.
Qed.

Lemma dict_get_absent {V} (k : string) (d : dict V) :
  ~ In k (map fst d) -> dict_get k d = None.
Proof.
  induction d as [| [k' v] d IH]; [reflexivity |].
  cbn [map fst In dict_get]. intros N.
  destruct (String.eqb k' k) eqn:K.
  - apply String.eqb_eq in K. tauto.
  - apply IH. tauto.
Qed.

Lemma last_opt_app {A} (l : list A) (x : A) : last_opt (l ++ [x]) = Some x.
Proof. unfold last_opt. now rewrite rev_unit. Qed.

Lemma last_opt_nil {A} (l : list A) : last_opt l = None -> l = [].
Proof.
  unfold last_opt. destruct (rev l) eqn:E; [| discriminate]. intros _.
  rewrite <- (rev_involutive l), E. reflexivity.
Qed.

Lemma last_opt_some {A} (l : list A) (x : A) :
  last_opt l = Some x -> l = (removelast l ++ [x])%list.
Proof.
  unfold last_opt. destruct (rev l) as [| y r] eqn:E; [discriminate |].
  intros [= ->]. rewrite <- (rev_involutive l), E. cbn [rev].
  now rewrite removelast_last.
Qed.

(** What [start] does, in every state. *)
Lemma start_spec (task : Task) (w : World) :
  start (task, w) =
  match last_opt (times task) with
  | Some (_, None) =>
      (Raise (TypeError (str_uuid (uuid task) ++ " has incorrect times: " ++
                         repr_times (times task))),
       (moved task (entered (status task)) (times task), after_reads 1 w))
  | _ =>
      (Ok tt,
       (moved task (entered (status task))
              (times task ++ [(clock w (ticks w), None)]),
        after_reads 1 w))
  end.
Proof.
  destruct task as [u de st ts ns].
  unfold start, entered, moved, after_reads, bind, self, lift_snd, now_utc,
    set_status, set_times, modify, ret, raise.
  cbn [fst snd uuid description status times notes Nat.add].
  destruct (String.eqb st CREATED || String.eqb st PAUSED);
    cbn [fst snd uuid description status times notes clock ticks stdout file];
    destruct (last_opt ts) as [[s [e |]] |]; reflexivity.
Qed.

(** What [pause] and [complete] do, in every state. *)
Lemma pause_spec (task : Task) (w : World) :
  pause (task, w) = closing PAUSED task w.
Proof.
  destruct task as [u de st ts ns].
  unfold pause, closing, moved, after_reads, printed, bind, self, lift_snd,
    now_utc, print, set_status, set_times, modify, ret, raise.
  cbn [fst snd uuid description status times notes Nat.add].
  destruct (String.eqb st RUNNING); cbn [negb]; [| reflexivity].
  cbn [fst snd uuid description status times notes clock ticks stdout file].
  destruct (last_opt ts) as [[s [e |]] |]; reflexivity.
Qed.

Lemma complete_spec (task : Task) (w : World) :
  complete (task, w) = closing COMPLETED task w.
Proof.
  destruct task as [u de st ts ns].
  unfold complete, closing, moved, after_reads, printed, bind, self,
    lift_snd, now_utc, print, set_status, set_times, modify, ret, raise.
  cbn [fst snd uuid description status times notes Nat.add].
  destruct (String.eqb st RUNNING); cbn [negb]; [| reflexivity].
  cbn [fst snd uuid description status times notes clock ticks stdout file].
  destruct (last_opt ts) as [[s [e |]] |]; reflexivity.
Qed.

Lemma closing_keeps_invariant (new_status : string) (task : Task)
                              (w : World) :
  open_only_last (times task) = true ->
  open_only_last (times (fst (snd (closing new_status task w)))) = true.
Proof.
  intros H. unfold closing.
  destruct (String.eqb (status task) RUNNING); [| assumption].
  destruct (last_opt (times task)) as [[s [e |]] |] eqn:E;
    cbn [fst snd moved times]; try assumption.
  unfold open_only_last. now rewrite removelast_last.
Qed.

Lemma add_note_spec (note : string) (task : Task) (w : World) :
  add_note note (task, w) =
  (Ok tt, (mkTask (uuid task) (description task) (status task) (times task)
                  (notes task ++ [note]), w)).
Proof. destruct task. reflexivity. Qed.

Lemma closed_not_open (l : list interval) :
  forallb is_closed l = true -> filter is_open l = [].
Proof.
  induction l as [| iv l IH]; [reflexivity |]. cbn [forallb filter].
  intros H. apply andb_true_iff in H. destruct H as [Hiv Hl].
  unfold is_closed in Hiv. apply negb_true_iff in Hiv. rewrite Hiv. auto.
Qed.

Lemma at_most_one_open (l : list interval) :
  open_only_last l = true -> (opened l <= 1)%nat.
Proof.
  unfold open_only_last, opened. intros H.
  destruct (last_opt l) as [x |] eqn:E.
  - rewrite (last_opt_some l x E), filter_app, closed_not_open by assumption.
    cbn [app filter]. destruct (is_open x); cbn; lia.
  - rewrite (last_opt_nil l E). cbn. lia.
Qed.

Lemma open_is_last (l pre post : list interval) (iv : interval) :
  open_only_last l = true -> l = (pre ++ iv :: post)%list ->
  is_open iv = true -> post = [].
Proof.
  unfold open_only_last. intros H -> Hiv.
  destruct post as [| p post]; [reflexivity |]. exfalso.
  rewrite removelast_app in H by discriminate.
  rewrite forallb_app in H. apply andb_true_iff in H. destruct H as [_ H].
  cbn [removelast forallb] in H. apply andb_true_iff in H.
  destruct H as [H _]. unfold is_closed in H. now rewrite Hiv in H.
Qed.

Lemma open_only_last_snoc (l : list interval) (iv : interval) :
  open_only_last (l ++ [iv]) = forallb is_closed l.
Proof. unfold open_only_last. now rewrite removelast_last. Qed.

Lemma closed_throughout (l : list interval) (s e : datetime.t) :
  open_only_last l = true -> last_opt l = Some (s, Some e) ->
  forallb is_closed l = true.
Proof.
  unfold open_only_last. intros H E.
  rewrite (last_opt_some l _ E), forallb_app, H. reflexivity.
Qed.

(** Every operation keeps the invariant of the interval list. *)
Lemma perform_keeps_invariant (o : operation) (task : Task) (w : World) :
  open_only_last (times task) = true ->
  open_only_last (times (task_after (perform o) task w)) = true.
Proof.
  intros H. unfold task_after. destruct o as [| | | note]; cbn [perform].
  - rewrite start_spec.
    destruct (last_opt (times task)) as [[s [e |]] |] eqn:E;
      cbn [fst snd moved times]; try assumption.
    + rewrite open_only_last_snoc. now apply (closed_throughout _ s e).
    + now rewrite (last_opt_nil _ E).
  - rewrite pause_spec. now apply closing_keeps_invariant.
  - rewrite complete_spec. now apply closing_keeps_invariant.
  - now rewrite add_note_spec.
Qed.

Lemma history_keeps_invariant (ops : list operation) :
  forall (task : Task) (w : World),
    open_only_last (times task) = true ->
    open_only_last (times (fst (history ops (task, w)))) = true.
Proof.
  induction ops as [| o ops IH]; intros task w H; [exact H |].
  cbn [history].
  pose proof (perform_keeps_invariant o task w H) as K.
  unfold task_after in K.
  destruct (perform o (task, w)) as [r [task' w']]. cbn [fst snd] in *.
  now apply IH.
Qed.

(** A task as [add_task] creates it has no interval, and reading a written
    task back keeps which intervals are open. *)
Lemma created_has_no_interval (fresh_id description : string)
      (date : datetime.date) (doc : main.TomlDocument) (w : World) :
  exists l,
    dict_get (isoformat date)
             (main.tasks_data (fst (snd (main.add_task fresh_id description
                                                        date (doc, w))))) =
    Some l /\
    last_opt l = Some (mkTask (UUID fresh_id) description CREATED [] []).
Proof.
  unfold main.add_task, bind, main.this, main.set_tasks_data, main.write,
    modify, lift_snd, print, dump.
  cbn [fst snd main.tasks_data main.working_date main.other_data].
  eexists. split; [apply dict_get_set_same |]. apply last_opt_app.
Qed.

Lemma reloaded_keeps_invariant (task : Task) :
  open_only_last (times (reloaded task)) = open_only_last (times task).
Proof.
  unfold reloaded, open_only_last. cbn [times].
  induction (times task) as [| iv l IH]; [reflexivity |].
  destruct l as [| iv' l]; [reflexivity |].
  cbn [map removelast forallb] in *. rewrite IH.
  destruct iv as [s [e |]]; reflexivity.
Qed.

(** C2.  When every interval of a task but the last is closed, at most one
    interval is open and an open interval is the last one; this holds again
    after [start], [pause], [complete] and [add_note], and after any
    sequence of them; and [start] on a task that has an open interval
    raises the [TypeError] of its check and leaves the intervals as they
    are. *)
Theorem open_interval_invariant (task : Task) (w : World) :
  open_only_last (times task) = true ->
  (opened (times task) <= 1)%nat /\
  (forall pre iv post,
     times task = (pre ++ iv :: post)%list -> is_open iv = true ->
     post = []) /\
  (forall o, open_only_last (times (task_after (perform o) task w)) = true) /\
  (forall ops,
     open_only_last (times (fst (history ops (task, w)))) = true) /\
  (forall pre s post,
     times task = (pre ++ (s, None) :: post)%list ->
     exists msg task',
       start (task, w) = (Raise (TypeError msg), (task', after_reads 1 w)) /\
       times task' = times task).
Proof.
  intros H. split; [now apply at_most_one_open |].
  split; [intros pre iv post; now apply (open_is_last (times task)) |].
  split; [intros o; now apply perform_keeps_invariant |].
  split; [intros ops; now apply history_keeps_invariant |].
  intros pre s post E.
  assert (post = []) as ->
    by exact (open_is_last (times task) pre post (s, None) H E eq_refl).
  rewrite start_spec, E, last_opt_app. eauto.
Qed.

Lemma open_interval_invariant_witness :
  open_only_last (times two_sittings) = true /\
  (opened (times two_sittings) <= 1)%nat /\
  open_only_last
    (times (fst (history [Pause; Start; AddNote "checked"; Complete; Start]
                         (two_sittings, world0)))) = true /\
  exists msg task',
    start (two_sittings, world0) =
    (Raise (TypeError msg), (task', after_reads 1 world0)) /\
    times task' = times two_sittings.
Proof.
  assert (open_only_last (times two_sittings) = true) as H by reflexivity.
  destruct (open_interval_invariant two_sittings world0 H)
    as [H1 [_ [_ [H4 H5]]]].
  split; [exact H |]. split; [exact H1 |]. split; [apply H4 |].
  apply (H5 [(at_ 9 0 12, Some (at_ 9 30 45))] (at_ 9 59 15) []).
  reflexivity.
Defined.

Lemma start_appends_when_closed (task : Task) (w : World) :
  forallb is_closed (times task) = true ->
  start (task, w) =
  (Ok tt,
   (moved task (entered (status task))
          (times task ++ [(clock w (ticks w), None)]),
    after_reads 1 w)).
Proof.
  intros Hc. rewrite start_spec.
  destruct (last_opt (times task)) as [[s [e |]] |] eqn:E; try reflexivity.
  exfalso. rewrite (last_opt_some _ _ E), forallb_app in Hc.
  apply andb_true_iff in Hc. destruct Hc as [_ Hc]. discriminate.
Qed.

(** C3 fails on the code: [start] on a completed task whose intervals are
    all closed returns normally, leaves the status [COMPLETED] and appends
    an open interval that starts now. *)
Theorem start_on_completed_opens_interval (task : Task) (w : World) :
  status task = COMPLETED ->
  forallb is_closed (times task) = true ->
  start (task, w) =
  (Ok tt,
   (moved task COMPLETED (times task ++ [(clock w (ticks w), None)]),
    after_reads 1 w)).
Proof.
  intros Hs Hc. rewrite start_appends_when_closed by assumption.
  now rewrite Hs.
Qed.

Lemma start_on_completed_opens_interval_witness :
  status done_task = COMPLETED /\
  forallb is_closed (times done_task) = true /\
  start (done_task, world0) =
  (Ok tt,
   (moved done_task COMPLETED
          [(at_ 9 0 0, Some (at_ 9 30 0)); (at_ 10 0 30, None)],
    after_reads 1 world0)).
Proof.
  split; [reflexivity |]. split; [reflexivity |].
  apply (start_on_completed_opens_interval done_task world0); reflexivity.
Defined.

(** The part of C3 that holds: from [CREATED] or [PAUSED], with no interval
    left open, [start] sets [RUNNING] and appends one open interval that
    starts now. *)
Lemma start_from_created_or_paused (task : Task) (w : World) :
  status task = CREATED \/ status task = PAUSED ->
  forallb is_closed (times task) = true ->
  start (task, w) =
  (Ok tt,
   (moved task RUNNING (times task ++ [(clock w (ticks w), None)]),
    after_reads 1 w)).
Proof.
  intros Hs Hc. rewrite start_appends_when_closed by assumption.
  now destruct Hs as [-> | ->].
Qed.

(** C4.  On a task that is not [RUNNING], [pause] and [complete] print the
    notice and change nothing.  On a [RUNNING] task whose last interval is
    open they set [PAUSED], respectively [COMPLETED], and give that last
    interval the current instant as its end, every earlier interval staying
    as it was.  On a [RUNNING] task whose last interval is closed they
    raise the [TypeError] of their check, the intervals staying as they
    were. *)
Theorem pause_and_complete_frame (task : Task) (w : World) :
  (status task <> RUNNING ->
   pause (task, w) = (Ok tt, (task, printed "Task is not running" w)) /\
   complete (task, w) = (Ok tt, (task, printed "Task is not running" w)))
  /\
  (status task = RUNNING ->
   forall earlier s,
     times task = (earlier ++ [(s, None)])%list ->
     pause (task, w) =
     (Ok tt,
      (moved task PAUSED (earlier ++ [(s, Some (clock w (ticks w)))]),
       after_reads 1 w)) /\
     complete (task, w) =
     (Ok tt,
      (moved task COMPLETED (earlier ++ [(s, Some (clock w (ticks w)))]),
       after_reads 1 w)))
  /\
  (status task = RUNNING ->
   forall earlier s e,
     times task = (earlier ++ [(s, Some e)])%list ->
     (exists msg task',
        pause (task, w) = (Raise (TypeError msg), (task', w)) /\
        times task' = times task) /\
     (exists msg task',
        complete (task, w) = (Raise (TypeError msg), (task', w)) /\
        times task' = times task)).
Proof.
  rewrite pause_spec, complete_spec. unfold closing.
  split; [| split].
  - intros N. apply String.eqb_neq in N. rewrite N. now split.
  - intros R earlier s E. apply String.eqb_eq in R.
    rewrite R, E, last_opt_app, removelast_last. now split.
  - intros R earlier s e E. apply String.eqb_eq in R.
    rewrite R, E, last_opt_app. split; eauto.
Qed.

Lemma pause_and_complete_frame_witness :
  (status done_task <> RUNNING /\
   pause (done_task, world0) =
   (Ok tt, (done_task, printed "Task is not running" world0)))
  /\
  (status two_sittings = RUNNING /\
   complete (two_sittings, world0) =
   (Ok tt,
    (moved two_sittings COMPLETED
           [(at_ 9 0 12, Some (at_ 9 30 45));
            (at_ 9 59 15, Some (at_ 10 0 30))],
     after_reads 1 world0)))
  /\
  (status (moved done_task RUNNING (times done_task)) = RUNNING /\
   exists msg task',
     pause (moved done_task RUNNING (times done_task), world0) =
     (Raise (TypeError msg), (task', world0)) /\
     times task' = times done_task).
Proof.
  split; [| split].
  - split; [discriminate |].
    apply (proj1 (pause_and_complete_frame done_task world0)).
    discriminate.
  - split; [reflexivity |].
    apply (proj1 (proj2 (pause_and_complete_frame two_sittings world0))
                 eq_refl [(at_ 9 0 12, Some (at_ 9 30 45))] (at_ 9 59 15)).
    reflexivity.
  - split; [reflexivity |].
    apply (proj2 (proj2 (pause_and_complete_frame
                           (moved done_task RUNNING (times done_task))
                           world0))
                 eq_refl [] (at_ 9 0 0) (at_ 9 30 0)).
    reflexivity.
Defined.

End StateMachine.

(** ** The store: lookup by fragment, missing days, the error scan *)

Section Store.
Import datetime tasks tasks.TaskStates main spec.

Lemma prefix_spec (a b : string) :
  String.prefix a b = true <-> exists post, b = a ++ post.
Proof.
  revert b. induction a as [| c a IH]; intros b.
  - destruct b; cbn; split; eauto.
  - destruct b as [| c' b]; cbn [String.prefix append].
    + split; [discriminate | intros [post H]; discriminate].
    + destruct (ascii_dec c c') as [<- | N].
      * rewrite IH. split; intros [post H]; exists post; congruence.
      * split; [discriminate | intros [post [= H _]]; congruence].
Qed.

Lemma contains_spec (a b : string) :
  contains a b = true <-> exists pre post, b = pre ++ a ++ post.
Proof.
  split.
  - induction b as [| c b IH]; cbn [contains];
      destruct (String.prefix a _) eqn:P.
    + apply prefix_spec in P. destruct P as [post ->]. now exists "", post.
    + discriminate.
    + apply prefix_spec in P. destruct P as [post ->]. now exists "", post.
    + intros H. destruct (IH H) as [pre [post ->]].
      now exists (String c pre), post.
  - intros [pre [post ->]]. induction pre as [| c pre IH].
    + cbn [append].
      assert (String.prefix a (a ++ post) = true) as P
        by (apply prefix_spec; eauto).
      destruct (a ++ post); cbn [contains]; now rewrite P.
    + cbn [append contains]. rewrite IH.
      now destruct (String.prefix a _).
Qed.

Lemma index_where_filter {A} (p : A -> bool) (l : list A) (x : A)
                         (r : list A) :
  filter p l = x :: r ->
  exists i, index_where p l = Some i /\ nth_error l i = Some x.
Proof.
  induction l as [| a l IH]; cbn [filter index_where]; [discriminate |].
  destruct (p a) eqn:Pa.
  - intros [= -> _]. now exists 0%nat.
  - intros H. destruct (IH H) as [i [-> Hi]]. now exists (S i).
Qed.

(** [update_task] up to the choice of the task: the two lookups that can
    fail leave the document and the world as they are. *)
Lemma update_task_lookup (fragment : string) (action : Actions)
      (note : option string) (doc : TomlDocument) (w : World) :
  let key := isoformat (working_date doc) in
  match dict_get key (tasks_data doc) with
  | None =>
      update_task fragment action note (doc, w) =
      (Raise (KeyError key), (doc, w))
  | Some today_tasks =>
      match relevant_task fragment today_tasks with
      | Raise e =>
          update_task fragment action note (doc, w) = (Raise e, (doc, w))
      | Ok _ => True
      end
  end.
Proof.
  cbv zeta. unfold update_task, bind, this. cbn [fst snd].
  destruct (dict_get _ _) as [l |]; [| reflexivity].
  destruct (relevant_task fragment l); [exact I | reflexivity].
Qed.

(** C10.  On a working date for which the store has no task list,
    [update_task] raises [KeyError] with the date key, whatever the
    fragment and the action, and changes nothing; when the list is there
    and no identifier contains the fragment, it raises the [LookupError]
    of the zero-match case instead. *)
Theorem missing_day_raises_key_error (fragment : string) (action : Actions)
        (note : option string) (doc : TomlDocument) (w : World) :
  (dict_get (isoformat (working_date doc)) (tasks_data doc) = None ->
   update_task fragment action note (doc, w) =
   (Raise (KeyError (isoformat (working_date doc))), (doc, w)))
  /\
  (forall today_tasks,
     dict_get (isoformat (working_date doc)) (tasks_data doc) =
     Some today_tasks ->
     filter (matches fragment) today_tasks = [] ->
     update_task fragment action note (doc, w) =
     (Raise (LookupError (no_tasks_msg fragment)), (doc, w))).
Proof.
  pose proof (update_task_lookup fragment action note doc w) as U.
  cbv zeta in U. split.
  - intros E. now rewrite E in U.
  - intros l E F. rewrite E in U. unfold relevant_task in U.
    now rewrite F in U.
Qed.

Lemma missing_day_raises_key_error_witness :
  (dict_get (isoformat (working_date no_list_today))
            (tasks_data no_list_today) = None /\
   update_task "a1f0" START None (no_list_today, morning) =
   (Raise (KeyError "2024-07-05"), (no_list_today, morning)))
  /\
  (dict_get (isoformat (working_date two_days)) (tasks_data two_days) =
   Some [fresh] /\
   filter (matches "a1f0") [fresh] = [] /\
   update_task "a1f0" START None (two_days, morning) =
   (Raise (LookupError (no_tasks_msg "a1f0")), (two_days, morning))).
Proof.
  split.
  - split; [reflexivity |].
    apply (proj1 (missing_day_raises_key_error
                    "a1f0" START None no_list_today morning)).
    reflexivity.
  - split; [reflexivity |]. split; [reflexivity |].
    apply (proj2 (missing_day_raises_key_error
                    "a1f0" START None two_days morning) [fresh]);
      reflexivity.
Defined.

(** C7.  Within the list of the working date, a task matches when its
    identifier contains the fragment as a substring.  When exactly one task
    matches, it is the one chosen; when none does, [update_task] raises the
    [LookupError] of the zero-match case, and when more than one does, the
    [LookupError] of the ambiguous case, a different message; in both cases
    the document and the world, backing file included, stay as they
    were. *)
Theorem lookup_by_fragment (fragment : string) (action : Actions)
        (note : option string) (doc : TomlDocument) (w : World)
        (today_tasks : list Task) :
  dict_get (isoformat (working_date doc)) (tasks_data doc) =
  Some today_tasks ->
  (forall x, matches fragment x = true <->
             exists pre post, str_uuid (uuid x) = pre ++ fragment ++ post)
  /\
  (forall x,
     filter (matches fragment) today_tasks = [x] ->
     relevant_task fragment today_tasks = Ok x /\
     In x today_tasks /\
     (forall y, In y today_tasks -> matches fragment y = true -> y = x) /\
     exists i, index_where (matches fragment) today_tasks = Some i /\
               nth_error today_tasks i = Some x)
  /\
  (filter (matches fragment) today_tasks = [] ->
   update_task fragment action note (doc, w) =
   (Raise (LookupError (no_tasks_msg fragment)), (doc, w)))
  /\
  ((2 <= List.length (filter (matches fragment) today_tasks))%nat ->
   update_task fragment action note (doc, w) =
   (Raise (LookupError (many_tasks_msg fragment)), (doc, w)))
  /\
  no_tasks_msg fragment <> many_tasks_msg fragment.
Proof.
  intros E.
  pose proof (update_task_lookup fragment action note doc w) as U.
  cbv zeta in U. rewrite E in U. unfold relevant_task in *.
  split; [intros x; apply contains_spec |].
  split; [| split; [| split]].
  - intros x F. rewrite F. split; [reflexivity |].
    assert (forall y, In y today_tasks /\ matches fragment y = true <->
                      In y [x]) as M
      by (intros y; rewrite <- F; symmetry; apply filter_In).
    split; [apply M; now left |].
    split.
    + intros y Hy My. destruct (proj1 (M y) (conj Hy My)) as [-> | []].
      reflexivity.
    + now apply index_where_filter with (r := []).
  - intros F. now rewrite F in U.
  - intros L. destruct (filter (matches fragment) today_tasks)
      as [| a [| b r]]; cbn [List.length] in L; try lia. exact U.
  - discriminate.
Qed.

Lemma lookup_by_fragment_witness :
  dict_get (isoformat (working_date yesterday)) (tasks_data yesterday) =
  Some [left_running; finished] /\
  relevant_task "a1" [left_running; finished] = Ok left_running /\
  update_task "zz" PAUSE None (yesterday, morning) =
  (Raise (LookupError (no_tasks_msg "zz")), (yesterday, morning)) /\
  update_task "a" PAUSE None (yesterday, morning) =
  (Raise (LookupError (many_tasks_msg "a")), (yesterday, morning)).
Proof.
  assert (dict_get (isoformat (working_date yesterday))
                   (tasks_data yesterday) =
          Some [left_running; finished]) as E by reflexivity.
  split; [exact E |]. split; [| split].
  - apply (lookup_by_fragment "a1" PAUSE None yesterday morning _ E).
    reflexivity.
  - apply (lookup_by_fragment "zz" PAUSE None yesterday morning _ E).
    reflexivity.
  - apply (lookup_by_fragment "a" PAUSE None yesterday morning _ E).
    cbn. lia.
Defined.

(** The first loop of [errors], from any dictionary collected so far: what
    is to be flagged under a date replaces what was there. *)
Lemma collect_errors_from (today_key : string) (data : dict (list Task)) :
  NoDup (map fst data) ->
  forall (acc : dict (list Task)) (date : string),
    dict_get date
      (fold_left
         (fun errors (kv : string * list Task) =>
            let (date, ts) := kv in
            if String.eqb date today_key then errors
            else match filter stale ts with
                 | [] => errors
                 | _ :: _ => dict_set date (filter stale ts) errors
                 end)
         data acc) =
    match flagged today_key date data with
    | Some e => Some e
    | None => dict_get date acc
    end.
Proof.
  induction data as [| [k ts] data IH]; intros ND acc date.
  - unfold flagged. cbn. now destruct (String.eqb date today_key).
  - cbn [map fst] in ND. inversion ND as [| ? ? Hk ND']; subst.
    cbn [fold_left]. rewrite IH by assumption.
    unfold flagged. cbn [dict_get].
    destruct (String.eqb k date) eqn:K.
    + apply String.eqb_eq in K. subst k.
      rewrite (dict_get_absent date data Hk).
      destruct (String.eqb date today_key); [reflexivity |].
      destruct (filter stale ts); [reflexivity |].
      now rewrite dict_get_set_same.
    + assert (k <> date) as N by now apply String.eqb_neq.
      destruct (String.eqb date today_key) eqn:T.
      * destruct (String.eqb k today_key); [reflexivity |].
        destruct (filter stale ts); [reflexivity |].
        now rewrite dict_get_set_other.
      * destruct (dict_get date data) as [ts' |].
        -- destruct (filter stale ts'); [| reflexivity].
           destruct (String.eqb k today_key); [reflexivity |].
           destruct (filter stale ts); [reflexivity |].
           now rewrite dict_get_set_other.
        -- destruct (String.eqb k today_key); [reflexivity |].
           destruct (filter stale ts); [reflexivity |].
           now rewrite dict_get_set_other.
Qed.

(** The dictionary the scan collects holds, under every date key other
    than today, exactly the tasks of that date that are not completed, and
    nothing under today. *)
Lemma collect_errors_lookup (today_key date : string)
                            (data : dict (list Task)) :
  NoDup (map fst data) ->
  dict_get date (collect_errors today_key data) = flagged today_key date data.
Proof.
  intros ND. unfold collect_errors.
  change (fun t : Task => negb (String.eqb (status t) COMPLETED)) with stale.
  rewrite (collect_errors_from today_key data ND [] date).
  now destruct (flagged today_key date data).
Qed.

Lemma dict_set_nonempty {V} (k : string) (v : list V) (d : dict (list V)) :
  v <> [] -> Forall (fun kv => snd kv <> []) d ->
  Forall (fun kv => snd kv <> []) (dict_set k v d).
Proof.
  intros Hv Hd. induction Hd as [| [k' v'] d Hkv Hd IH]; cbn [dict_set].
  - now constructor.
  - destruct (String.eqb k' k); constructor; assumption.
Qed.

(** Every date the scan keeps has at least one task. *)
Lemma collect_errors_nonempty (today_key : string) (data : dict (list Task)) :
  Forall (fun kv => snd kv <> []) (collect_errors today_key data).
Proof.
  unfold collect_errors.
  assert (Forall (fun kv : string * list Task => snd kv <> []) []) as Hacc
    by constructor.
  revert Hacc. generalize (@nil (string * list Task)).
  induction data as [| [k ts] data IH]; intros acc Hacc; [exact Hacc |].
  cbn [fold_left]. apply IH.
  destruct (String.eqb k today_key); [exact Hacc |].
  destruct (filter _ ts) as [| t r] eqn:F; [exact Hacc |].
  apply dict_set_nonempty; [discriminate | exact Hacc].
Qed.

(** C8 fails on the code: whenever the scan has collected a stale task, as
    for a task left running on an earlier date, [errors] prints the header of
    the first date and the call of [report] on its first task raises
    [AttributeError]: no task is ever printed.  Only a scan that collects
    nothing returns. *)
Theorem stale_task_report_raises (doc : TomlDocument) (w : World) :
  (collect_errors (isoformat (date_of (clock w (ticks w)))) (tasks_data doc)
   = [] ->
   errors (doc, w) =
   (Ok tt, (doc, printed "No errors found" (after_reads 1 w))))
  /\
  (forall date errs rest,
     collect_errors (isoformat (date_of (clock w (ticks w)))) (tasks_data doc)
     = (date, errs) :: rest ->
     errors (doc, w) =
     (Raise (AttributeError "'Task' object has no attribute 'report'"),
      (doc, printed (date_header date) (after_reads 1 w)))).
Proof.
  unfold errors, bind, this, lift_snd, now_utc. cbn [fst snd].
  split.
  - intros E. rewrite E. reflexivity.
  - intros date errs rest E.
    pose proof (collect_errors_nonempty
                  (isoformat (date_of (clock w (ticks w)))) (tasks_data doc))
      as N.
    rewrite E in *. inversion N as [| ? ? Hne _]; subst. cbn [snd] in Hne.
    destruct errs as [| t errs]; [congruence |]. reflexivity.
Qed.

Lemma stale_task_report_raises_witness :
  collect_errors (isoformat (date_of (clock morning (ticks morning))))
                 (tasks_data two_days) =
  [("2024-07-03", [left_running])] /\
  errors (two_days, morning) =
  (Raise (AttributeError "'Task' object has no attribute 'report'"),
   (two_days, printed (date_header "2024-07-03") (after_reads 1 morning))).
Proof.
  split; [reflexivity |].
  apply (proj2 (stale_task_report_raises two_days morning)
               "2024-07-03" [left_running] []).
  reflexivity.
Defined.

End Store.

(** ** Further properties of the interval accounting *)

Section MoreAccounting.
Import datetime tasks tasks.TaskStates spec more.

Lemma sum_delta_bounds (l : list (datetime.t * datetime.t)) :
  0 <= sum_delta_seconds l <= 86399 * Z.of_nat (List.length l).
Proof.
  induction l as [| se l IH]; [cbn; lia |].
  unfold sum_delta_seconds in *. cbn [fold_right List.length].
  rewrite seconds_sub.
  pose proof (Z.mod_pos_bound (whole_seconds (snd se) (fst se)) 86400).
  lia.
Qed.

Lemma length_ends_or_now (c : nat -> datetime.t) (l : list interval) :
  forall k, List.length (ends_or_now c k l) = List.length l.
Proof.
  induction l as [| [s [e |]] l IH]; intros k; cbn [ends_or_now List.length];
    auto.
Qed.

Lemma minutes_sum_in_order (task : Task) (w : World) :
  forallb in_order (resolved task w) = true ->
  minutes (task, w) =
  (Ok (sum_whole_seconds (resolved task w) # 60)%Q,
   (task, after_reads (opened (times task)) w)).
Proof.
  intros H. rewrite minutes_run_ok by now apply in_order_same_day.
  now rewrite sum_delta_in_order.
Qed.

(** X1.  Whenever [minutes] returns, the result is a number of sixtieths
    between 0 and 86399 per interval: no interval, not even one that ends
    before it starts, is counted as negative or as a day or more. *)
Theorem minutes_within_a_day_per_interval
        (task : Task) (w : World) (q : Q) (s' : Task * World) :
  minutes (task, w) = (Ok q, s') ->
  Qden q = 60%positive /\
  0 <= Qnum q <= 86399 * Z.of_nat (List.length (times task)).
Proof.
  intros H. destruct (forallb same_day (resolved task w)) eqn:E.
  - rewrite (minutes_run_ok task w E) in H. injection H as <- _.
    cbn [Qden Qnum]. split; [reflexivity |].
    pose proof (sum_delta_bounds (resolved task w)) as B.
    unfold resolved in B at 3. now rewrite length_ends_or_now in B.
  - destruct (minutes_run_raises task w E) as [n R]. rewrite R in H.
    discriminate.
Qed.

Lemma minutes_within_a_day_per_interval_witness :
  minutes (rewound_task, world0) = (Ok (85200 # 60)%Q, (rewound_task, world0))
  /\ Qden (85200 # 60)%Q = 60%positive /\
  0 <= Qnum (85200 # 60)%Q <= 86399 * Z.of_nat (List.length (times rewound_task)).
Proof.
  split; [reflexivity |].
  apply (minutes_within_a_day_per_interval rewound_task world0 _
           (rewound_task, world0)).
  reflexivity.
Defined.

Lemma ends_or_now_closed (c : nat -> datetime.t) (l : list interval) :
  forallb is_closed l = true ->
  forall k, ends_or_now c k l = ends_or_now c 0 l /\ opened l = 0%nat.
Proof.
  induction l as [| [s [e |]] l IH]; cbn [forallb]; intros H k.
  - now split.
  - cbn [is_closed is_open snd negb andb] in H. cbn [ends_or_now].
    destruct (IH H k) as [-> O]. split; [reflexivity |].
    unfold opened in *. cbn [filter is_open snd]. exact O.
  - discriminate.
Qed.

Lemma ends_or_now_perm (c : nat -> datetime.t) (l l' : list interval) :
  forallb is_closed l = true -> Permutation l l' ->
  forallb is_closed l' = true /\
  Permutation (ends_or_now c 0 l) (ends_or_now c 0 l').
Proof.
  intros H P. revert H.
  induction P as [| x l l' P IH | x y l | l l' l'' P1 IH1 P2 IH2]; intros H.
  - now split.
  - destruct x as [s [e |]]; cbn [forallb] in *; [| discriminate].
    cbn [is_closed is_open snd negb andb] in *.
    destruct (IH H) as [H' P']. split; [exact H' |].
    cbn [ends_or_now]. now constructor.
  - destruct x as [s [e |]], y as [s' [e' |]]; cbn [forallb] in *;
      cbn [is_closed is_open snd negb andb] in *; try discriminate.
    split; [exact H |]. cbn [ends_or_now]. constructor.
  - destruct (IH1 H) as [H' P']. destruct (IH2 H') as [H'' P''].
    split; [exact H'' |]. now apply perm_trans with (ends_or_now c 0 l').
Qed.

Lemma forallb_perm {A} (p : A -> bool) (l l' : list A) :
  Permutation l l' -> forallb p l = forallb p l'.
Proof.
  induction 1 as [| x l l' P IH | x y l | l l' l'' P1 IH1 P2 IH2];
    cbn [forallb].
  - reflexivity.
  - now rewrite IH.
  - now rewrite !andb_assoc, (andb_comm (p y)).
  - congruence.
Qed.

Lemma sum_delta_perm (l l' : list (datetime.t * datetime.t)) :
  Permutation l l' -> sum_delta_seconds l = sum_delta_seconds l'.
Proof.
  unfold sum_delta_seconds.
  induction 1 as [| x l l' P IH | x y l | l l' l'' P1 IH1 P2 IH2];
    cbn [fold_right]; lia.
Qed.

(** X2.  For a task whose intervals are all closed, [minutes] does not read
    the clock and depends on the intervals only up to their order: the same
    intervals in another order give the same number, or the same failure. *)
Theorem minutes_closed_order_irrelevant (task task' : Task) (w : World) :
  forallb is_closed (times task) = true ->
  Permutation (times task) (times task') ->
  fst (minutes (task, w)) = fst (minutes (task', w)) /\
  snd (minutes (task, w)) = (task, w) /\
  snd (minutes (task', w)) = (task', w).
Proof.
  intros H P.
  destruct (ends_or_now_perm (clock w) _ _ H P) as [H' PR].
  destruct (ends_or_now_closed (clock w) _ H (ticks w)) as [R O].
  destruct (ends_or_now_closed (clock w) _ H' (ticks w)) as [R' O'].
  assert (forall t, forallb is_closed (times t) = true ->
                    snd (minutes (t, w)) = (t, w)) as Frame.
  { intros t Ht.
    unfold minutes, bind, self, lift_snd. cbn [fst snd].
    revert Ht. generalize 0 at 1. generalize (times t).
    induction l as [| [s [e |]] l IH]; intros acc Hl.
    - reflexivity.
    - cbn [forallb is_closed is_open snd negb andb] in Hl.
      cbn [for_each]. unfold bind at 1, minutes_body at 1.
      unfold bind at 1, ret at 1.
      destruct (negb _); [reflexivity |]. unfold ret at 1.
      now apply IH.
    - discriminate. }
  split; [| split; [now apply Frame | now apply Frame]].
  destruct (forallb same_day (resolved task w)) eqn:E.
  - assert (forallb same_day (resolved task' w) = true) as E'.
    { unfold resolved in *. rewrite R in E. rewrite R'.
      now rewrite <- (forallb_perm same_day _ _ PR). }
    rewrite (minutes_run_ok _ _ E), (minutes_run_ok _ _ E'). cbn [fst].
    unfold resolved. rewrite R, R'. now rewrite (sum_delta_perm _ _ PR).
  - assert (forallb same_day (resolved task' w) = false) as E'.
    { unfold resolved in *. rewrite R in E. rewrite R'.
      now rewrite <- (forallb_perm same_day _ _ PR). }
    destruct (minutes_run_raises _ _ E) as [n ->].
    destruct (minutes_run_raises _ _ E') as [n' ->]. reflexivity.
Qed.

Lemma minutes_closed_order_irrelevant_witness :
  forallb is_closed (times finished_twice) = true /\
  Permutation (times finished_twice) (times finished_twice_swapped) /\
  fst (minutes (finished_twice, world0)) =
  fst (minutes (finished_twice_swapped, world0)).
Proof.
  split; [reflexivity |]. split; [apply perm_swap |].
  apply (minutes_closed_order_irrelevant finished_twice
                                         finished_twice_swapped world0).
  - reflexivity.
  - apply perm_swap.
Defined.

End MoreAccounting.

(** ** Further properties of the state machine *)

Section MoreStateMachine.
Import datetime tasks tasks.TaskStates spec more.

(** X3.  The whole life of a task: from a created task without intervals,
    start, pause, start and complete read the clock four times and leave the
    task completed with two closed intervals, the first from the first
    reading to the second, the other from the third to the fourth; nothing
    is printed and the notes stay. *)
Theorem lifecycle_two_sittings (task : Task) (w : World) :
  status task = CREATED -> times task = [] ->
  history [Start; Pause; Start; Complete] (task, w) =
  (moved task COMPLETED
         [(clock w (ticks w), Some (clock w (1 + ticks w)));
          (clock w (2 + ticks w), Some (clock w (3 + ticks w)))],
   after_reads 4 w).
Proof.
  destruct task as [u de st ts ns]. cbn [status times].
  intros -> ->. reflexivity.
Qed.

Lemma lifecycle_two_sittings_witness :
  status fresh = CREATED /\ times fresh = [] /\
  history [Start; Pause; Start; Complete] (fresh, world0) =
  (moved fresh COMPLETED
         [(at_ 10 0 30, Some (at_ 10 1 30));
          (at_ 10 2 30, Some (at_ 10 3 30))],
   after_reads 4 world0).
Proof.
  split; [reflexivity |]. split; [reflexivity |].
  apply (lifecycle_two_sittings fresh world0); reflexivity.
Defined.

(** X4.  Time is accounted as the clock gave it: a created task that is
    started and then paused, the two readings of the clock lying on one day
    and in order, has as its minutes the whole seconds between the two
    readings divided by 60, and computing them reads the clock no more. *)
Theorem started_then_paused_minutes (task : Task) (w : World) :
  status task = CREATED -> times task = [] ->
  in_order (clock w (ticks w), clock w (1 + ticks w)) = true ->
  minutes (history [Start; Pause] (task, w)) =
  (Ok (whole_seconds (clock w (1 + ticks w)) (clock w (ticks w)) # 60)%Q,
   history [Start; Pause] (task, w)).
Proof.
  destruct task as [u de st ts ns]. cbn [status times].
  intros -> -> H.
  assert (history [Start; Pause] (mkTask u de CREATED [] ns, w) =
          (mkTask u de PAUSED
                  [(clock w (ticks w), Some (clock w (1 + ticks w)))] ns,
           after_reads 2 w)) as -> by reflexivity.
  rewrite minutes_sum_in_order.
  - unfold resolved, sum_whole_seconds. cbn [times ends_or_now fold_right fst snd].
    rewrite Z.add_0_r. reflexivity.
  - unfold resolved. cbn [times ends_or_now forallb]. now rewrite H.
Qed.

Lemma started_then_paused_minutes_witness :
  status fresh = CREATED /\ times fresh = [] /\
  in_order (clock world0 (ticks world0), clock world0 (1 + ticks world0)) = true
  /\
  minutes (history [Start; Pause] (fresh, world0)) =
  (Ok (60 # 60)%Q, history [Start; Pause] (fresh, world0)).
Proof.
  split; [reflexivity |]. split; [reflexivity |]. split; [reflexivity |].
  apply (started_then_paused_minutes fresh world0); reflexivity.
Defined.

Lemma entered_twice (st : string) : entered (entered st) = entered st.
Proof.
  unfold entered.
  destruct (String.eqb st CREATED || String.eqb st PAUSED) eqn:E;
    [reflexivity | now rewrite E].
Qed.

(** X5.  [start] cannot be repeated: when it has returned, a second [start]
    raises the [TypeError] of its check, after reading the clock, and leaves
    the task as the first one left it. *)
Theorem start_twice_raises (task task1 : Task) (w w1 : World) :
  start (task, w) = (Ok tt, (task1, w1)) ->
  exists msg,
    start (task1, w1) = (Raise (TypeError msg), (task1, after_reads 1 w1)).
Proof.
  rewrite start_spec.
  destruct (last_opt (times task)) as [[s [e |]] |];
    intros [= <- <-]; rewrite start_spec; unfold moved at 1;
    cbn [times]; rewrite last_opt_app; unfold moved;
    cbn [uuid description status times notes]; rewrite entered_twice; eauto.
Qed.

Lemma start_twice_raises_witness :
  start (fresh, world0) =
  (Ok tt, (moved fresh RUNNING [(at_ 10 0 30, None)], after_reads 1 world0)) /\
  exists msg,
    start (moved fresh RUNNING [(at_ 10 0 30, None)], after_reads 1 world0) =
    (Raise (TypeError msg),
     (moved fresh RUNNING [(at_ 10 0 30, None)],
      after_reads 1 (after_reads 1 world0))).
Proof.
  split; [reflexivity |].
  apply (start_twice_raises fresh _ world0 _). reflexivity.
Defined.

(** X6.  Once [pause] or [complete] has closed the open interval of a
    running task, a further [pause] or [complete] only prints the notice: a
    paused task cannot be completed without being started again, and a
    completed task stays as it is. *)
Theorem closed_task_ignores_pause_and_complete
        (o : operation) (task task1 : Task) (w w1 : World) :
  o = Pause \/ o = Complete ->
  status task = RUNNING ->
  perform o (task, w) = (Ok tt, (task1, w1)) ->
  pause (task1, w1) = (Ok tt, (task1, printed "Task is not running" w1)) /\
  complete (task1, w1) = (Ok tt, (task1, printed "Task is not running" w1)).
Proof.
  intros Ho R.
  assert (exists st, (st = PAUSED \/ st = COMPLETED) /\
                     perform o (task, w) = closing st task w) as [st [Hst ->]].
  { destruct Ho as [-> | ->]; cbn [perform].
    - exists PAUSED. split; [now left | apply pause_spec].
    - exists COMPLETED. split; [now right | apply complete_spec]. }
  unfold closing at 1. apply String.eqb_eq in R. rewrite R.
  destruct (last_opt (times task)) as [[s [e |]] |]; try discriminate.
  intros [= <- <-]. rewrite pause_spec, complete_spec. unfold closing.
  unfold moved at 1 3. cbn [status].
  now destruct Hst as [-> | ->].
Qed.

Lemma closed_task_ignores_pause_and_complete_witness :
  status two_sittings = RUNNING /\
  perform Pause (two_sittings, world0) =
  (Ok tt,
   (moved two_sittings PAUSED
          [(at_ 9 0 12, Some (at_ 9 30 45));
           (at_ 9 59 15, Some (at_ 10 0 30))],
    after_reads 1 world0)) /\
  complete (moved two_sittings PAUSED
                  [(at_ 9 0 12, Some (at_ 9 30 45));
                   (at_ 9 59 15, Some (at_ 10 0 30))],
            after_reads 1 world0) =
  (Ok tt,
   (moved two_sittings PAUSED
          [(at_ 9 0 12, Some (at_ 9 30 45));
           (at_ 9 59 15, Some (at_ 10 0 30))],
    printed "Task is not running" (after_reads 1 world0))).
Proof.
  split; [reflexivity |]. split; [reflexivity |].
  apply (closed_task_ignores_pause_and_complete
           Pause two_sittings _ world0 _); [now left | reflexivity | reflexivity].
Defined.

End MoreStateMachine.

(** ** Further properties of parsing and serialization *)

Section MoreSerialization.
Import datetime tasks toml tasks.TomlHelper spec more.

Lemma take_year_range (s r : string) (y : Z) :
  take_year s = Some (y, r) -> 0 <= y <= 9999.
Proof.
  unfold take_year.
  do 4 (destruct s as [| ?c s]; [discriminate |]).
  destruct (digit_val c) as [x1 |] eqn:E1; [| discriminate].
  destruct (digit_val c0) as [x2 |] eqn:E2; [| discriminate].
  destruct (digit_val c1) as [x3 |] eqn:E3; [| discriminate].
  destruct (digit_val c2) as [x4 |] eqn:E4; [| discriminate].
  intros H.
  assert (y = 1000 * x1 + 100 * x2 + 10 * x3 + x4) as -> by congruence.
  apply digit_val_inv in E1, E2, E3, E4. lia.
Qed.

Lemma take_field_range (two one : Z -> bool) (s r : string) (v : Z) :
  take_field two one s = Some (v, r) -> two v = true \/ one v = true.
Proof.
  unfold take_field.
  destruct s as [| a s]; [discriminate |].
  destruct (digit_val a) as [x |]; [| discriminate].
  assert ((if one x then Some (x, s) else None) = Some (v, r) ->
          one v = true) as Single.
  { destruct (one x) eqn:O; [| discriminate]. intros H.
    assert (v = x) as -> by congruence. exact O. }
  destruct s as [| b s']; [auto |].
  destruct (digit_val b) as [y |]; [| auto].
  destruct (two (10 * x + y)) eqn:T; [| auto].
  intros H. assert (v = 10 * x + y) as -> by congruence. now left.
Qed.

Lemma between_range (lo hi v : Z) : between lo hi v = true -> lo <= v <= hi.
Proof. unfold between. intros H. bool_to_prop H. lia. Qed.

Lemma take_day_range (s r : string) (v : Z) :
  take_day s = Some (v, r) -> 1 <= v <= 31.
Proof.
  assert (take_field (between 1 31) (between 1 9) s = Some (v, r) ->
          1 <= v <= 31) as F.
  { intros H. apply take_field_range in H.
    destruct H as [H | H]; apply between_range in H; lia. }
  unfold take_day. destruct s as [| a s]; [exact F |].
  destruct (Ascii.eqb a " ") eqn:A.
  - apply Ascii.eqb_eq in A. subst a.
    destruct s as [| b s]; [exact F |].
    destruct (digit_val b) as [y |]; [| discriminate].
    destruct (between 1 9 y) eqn:B; [| discriminate].
    intros H. assert (v = y) as -> by congruence.
    apply between_range in B. lia.
  - destruct a as [[] [] [] [] [] [] [] []]; try exact F; discriminate.
Qed.

(** [strptime] with the format of the file never yields a timestamp that is
    not a date of the calendar: what it returns is a valid [datetime] (a day
    the month has, hour below 24, minute below 60) with no seconds and no
    microseconds. *)
Lemma strptime_sound (s : string) (x : datetime.t) :
  strptime s = Some x -> valid x = true /\ on_the_minute x = true.
Proof.
  unfold strptime.
  destruct (take_year s) as [[y s1] |] eqn:Ey; [| discriminate].
  destruct (take_lit "-" s1) as [s2 |]; [| discriminate].
  destruct (take_month s2) as [[m s3] |] eqn:Em; [| discriminate].
  destruct (take_lit "-" s3) as [s4 |]; [| discriminate].
  destruct (take_day s4) as [[d s5] |] eqn:Ed; [| discriminate].
  destruct (take_lit "T" s5) as [s6 |]; [| discriminate].
  destruct (take_hour s6) as [[h s7] |] eqn:Eh; [| discriminate].
  destruct (take_lit ":" s7) as [s8 |]; [| discriminate].
  destruct (take_minute s8) as [[mi s9] |] eqn:Emi; [| discriminate].
  destruct s9; [| discriminate].
  destruct ((1 <=? y) && (d <=? days_in_month y m)) eqn:C; [| discriminate].
  intros [= <-]. split; [| reflexivity].
  apply take_year_range in Ey. apply take_day_range in Ed.
  apply take_field_range in Em, Eh, Emi.
  assert (1 <= m <= 12)
    by (destruct Em as [B | B]; apply between_range in B; lia).
  assert (0 <= h <= 23)
    by (destruct Eh as [B | B]; apply between_range in B; lia).
  assert (0 <= mi <= 59)
    by (destruct Emi as [B | B]; apply between_range in B; lia).
  bool_to_prop C. unfold valid.
  cbn [year month day hour minute second microsecond].
  repeat (apply andb_true_iff; split);
    try (apply Z.leb_le; lia); try (apply Z.ltb_lt; lia).
Qed.

Lemma parse_time_sound (s : string) (x : datetime.t) :
  parse_time s = Ok x -> valid x = true /\ truncate_to_minute x = x.
Proof.
  unfold parse_time. destruct (strptime s) as [y |] eqn:E; [| discriminate].
  intros [= <-]. apply strptime_sound in E. destruct E as [V M].
  split; [exact V | now apply truncate_fixed].
Qed.

Lemma parse_pair_sound (p : string * string) (iv : interval) :
  parse_pair p = Ok iv ->
  valid (fst iv) = true /\
  match snd iv with Some e => valid e = true | None => True end /\
  truncate_interval iv = iv.
Proof.
  unfold parse_pair.
  destruct (parse_time (fst p)) as [x |] eqn:Ex; [| discriminate].
  apply parse_time_sound in Ex. destruct Ex as [Vx Tx].
  destruct (String.eqb (lower (snd p)) "none").
  - intros [= <-]. unfold truncate_interval. cbn [fst snd option_map].
    now rewrite Tx.
  - destruct (parse_time (snd p)) as [y |] eqn:Ey; [| discriminate].
    apply parse_time_sound in Ey. destruct Ey as [Vy Ty].
    intros [= <-]. unfold truncate_interval. cbn [fst snd option_map].
    now rewrite Tx, Ty.
Qed.

Lemma parse_times_sound (l : list (string * string)) :
  forall ts, parse_times l = Ok ts ->
             forallb valid_interval ts = true /\
             map truncate_interval ts = ts.
Proof.
  induction l as [| p l IH]; cbn [parse_times]; intros ts.
  - intros [= <-]. now split.
  - destruct (parse_pair p) as [iv |] eqn:Ep; [| discriminate].
    destruct (parse_times l) as [ivs |]; [| discriminate].
    intros [= <-]. destruct (IH ivs eq_refl) as [V T].
    apply parse_pair_sound in Ep. destruct Ep as [V1 [V2 T1]].
    cbn [forallb map]. rewrite V, T, T1. split; [| reflexivity].
    unfold valid_interval. rewrite V1. destruct (snd iv); [now rewrite V2 | reflexivity].
Qed.

(** X7.  Every task [deserialize] returns holds timestamps of the calendar
    only: each start and each end is a valid [datetime] (a day its month
    has, hour below 24, minute below 60) without seconds or microseconds,
    and the identifier is the string of the record.  A record with a day
    such as February 30 is never turned into a task. *)
Theorem deserialized_timestamps_are_sound (d : toml_dict) (task : Task) :
  deserialize d = Ok task ->
  uuid task = UuidStr (k_uuid d) /\
  forallb valid_interval (times task) = true /\
  forallb interval_on_the_minute (times task) = true.
Proof.
  unfold deserialize.
  destruct (parse_times _) as [ts |] eqn:P; [| discriminate].
  intros [= <-]. cbn [uuid times]. split; [reflexivity |].
  destruct (parse_times_sound _ ts P) as [V T]. split; [exact V |].
  now apply (map_fixed truncate_interval _ _ truncate_interval_fixed).
Qed.

Lemma deserialized_timestamps_are_sound_witness :
  deserialize loose_record = Ok loose_task /\
  uuid loose_task = UuidStr (k_uuid loose_record) /\
  forallb valid_interval (times loose_task) = true /\
  forallb interval_on_the_minute (times loose_task) = true.
Proof.
  split; [reflexivity |].
  apply (deserialized_timestamps_are_sound loose_record loose_task).
  reflexivity.
Defined.

Lemma printable_from_valid (ts : list interval) :
  forallb valid_interval ts = true ->
  forallb four_digit_years ts = true ->
  forallb printable_interval ts = true.
Proof.
  induction ts as [| iv ts IH]; [reflexivity |]. cbn [forallb].
  intros V Y. apply andb_true_iff in V, Y.
  destruct V as [V1 V], Y as [Y1 Y]. rewrite IH by assumption.
  unfold valid_interval, four_digit_years, printable_interval, printable in *.
  apply andb_true_iff in V1, Y1. destruct V1 as [Va Vb], Y1 as [Ya Yb].
  rewrite Va, Ya. destruct (snd iv); [now rewrite Vb, Yb | reflexivity].
Qed.

(** X8.  A task read from the file survives being written and read again
    unchanged: when [deserialize] returns a task whose years have four
    digits, serializing that task and deserializing the result gives the
    same task back. *)
Theorem loaded_task_round_trips (d : toml_dict) (task : Task) (w : World) :
  deserialize d = Ok task ->
  forallb four_digit_years (times task) = true ->
  exists d',
    serialize task false w = (Ok d', w) /\ deserialize d' = Ok task.
Proof.
  unfold deserialize at 1.
  destruct (parse_times _) as [ts |] eqn:P; [| discriminate].
  intros [= <-]. cbn [times]. intros Y.
  destruct (parse_times_sound _ ts P) as [V T].
  exists (bare_bones (mkTask (UuidStr (k_uuid d)) (k_description d)
                             (k_status d) ts
                             match k_notes d with Some n => n | None => [] end)).
  split; [reflexivity |].
  rewrite deserialize_bare_bones
    by (cbn [times]; now apply printable_from_valid).
  unfold reloaded. cbn [uuid description status times notes str_uuid].
  now rewrite T.
Qed.

Lemma loaded_task_round_trips_witness :
  deserialize loose_record = Ok loose_task /\
  forallb four_digit_years (times loose_task) = true /\
  exists d',
    serialize loose_task false world0 = (Ok d', world0) /\
    deserialize d' = Ok loose_task.
Proof.
  split; [reflexivity |]. split; [reflexivity |].
  apply (loaded_task_round_trips loose_record loose_task world0);
    reflexivity.
Defined.





End MoreSerialization.

(** ** Further properties of the store *)

Section MoreStore.
Import datetime tasks tasks.TaskStates toml tasks.TomlHelper main main_more.
Import spec more.

Lemma distinct_NoDup (l : list string) : distinct l = true -> NoDup l.
Proof.
  induction l as [| k l IH]; cbn [distinct]; intros H; constructor.
  - apply andb_true_iff in H. destruct H as [H _].
    apply negb_true_iff in H. intros I.
    assert (existsb (String.eqb k) l = true) as E
      by (apply existsb_exists; exists k; split;
          [exact I | apply String.eqb_refl]).
    congruence.
  - apply andb_true_iff in H. now apply IH.
Qed.



Lemma write_spec (doc : TomlDocument) (w : World) :
  write (doc, w) = (Ok tt, (doc, written doc w)).
Proof. reflexivity. Qed.

Lemma dict_get_map {V W} (f : V -> W) (k : string) (d : dict V) :
  dict_get k (map (fun kv : string * V => (fst kv, f (snd kv))) d) =
  option_map f (dict_get k d).
Proof.
  induction d as [| [k' v] d IH]; [reflexivity |].
  cbn [map dict_get fst snd]. now destruct (String.eqb k' k).
Qed.

Lemma dict_get_fold_set {A V} (f : A -> V) (k : string) (data : dict A) :
  NoDup (map fst data) ->
  forall init : dict V,
    dict_get k
      (fold_left (fun acc (kv : string * A) =>
                    dict_set (fst kv) (f (snd kv)) acc) data init) =
    match dict_get k data with
    | Some a => Some (f a)
    | None => dict_get k init
    end.
Proof.
  induction data as [| [k0 a0] data IH]; intros ND init; [reflexivity |].
  cbn [map fst] in ND. inversion ND as [| ? ? Hk ND']; subst.
  cbn [fold_left fst snd dict_get]. rewrite IH by assumption.
  destruct (String.eqb k0 k) eqn:K.
  - apply String.eqb_eq in K. subst k0.
    rewrite (dict_get_absent k data Hk). apply dict_get_set_same.
  - destruct (dict_get k data); [reflexivity |].
    apply dict_get_set_other. now apply String.eqb_neq.
Qed.

(** X10.  What [write] leaves in the file: under every date key of the store
    the serialized tasks of that date, under every other key the metadata
    kept from the load; a metadata key that is also a date key is
    overwritten by the tasks.  The document, the clock and the output are
    untouched. *)
Theorem write_then_lookup (doc : TomlDocument) (w : World) :
  NoDup (map fst (tasks_data doc)) ->
  exists w',
    write (doc, w) = (Ok tt, (doc, w')) /\
    clock w' = clock w /\ ticks w' = ticks w /\ stdout w' = stdout w /\
    forall k,
      dict_get k (file w') =
      match dict_get k (tasks_data doc) with
      | Some ts => Some (Tasks (map bare_bones ts))
      | None => option_map Other (dict_get k (other_data doc))
      end.
Proof.
  intros ND. exists (written doc w). rewrite write_spec.
  repeat split. intros k. unfold written, serialized_data. cbn [file].
  rewrite (dict_get_fold_set (fun ts => Tasks (map bare_bones ts)) k _ ND).
  destruct (dict_get k (tasks_data doc)); [reflexivity |].
  apply (dict_get_map Other).
Qed.

Lemma write_then_lookup_witness :
  NoDup (map fst (tasks_data two_days)) /\
  exists w',
    write (two_days, morning) = (Ok tt, (two_days, w')) /\
    dict_get "2024-07-04" (file w') = Some (Tasks [bare_bones fresh]) /\
    dict_get "version" (file w') = Some (Other "0.0.0").
Proof.
  assert (NoDup (map fst (tasks_data two_days))) as ND
    by (apply distinct_NoDup; reflexivity).
  split; [exact ND |].
  destruct (write_then_lookup two_days morning ND) as [w' [W [_ [_ [_ L]]]]].
  exists w'. split; [exact W |]. split; apply L.
Defined.






Lemma map_fst_dict_set {V} (k : string) (v v0 : V) (d : dict V) :
  dict_get k d = Some v0 -> map fst (dict_set k v d) = map fst d.
Proof.
  induction d as [| [k' v'] d IH]; cbn [dict_get dict_set]; [discriminate |].
  destruct (String.eqb k' k); cbn [map fst]; [reflexivity |].
  intros H. now rewrite IH.
Qed.

Lemma length_list_set {A} (i : nat) (v : A) (l : list A) :
  List.length (list_set i v l) = List.length l.
Proof.
  revert i. induction l as [| a l IH]; intros [| i]; cbn [list_set List.length];
    auto.
Qed.

Lemma map_list_set {A B} (f : A -> B) (i : nat) (v x : A) (l : list A) :
  nth_error l i = Some x -> f v = f x ->
  map f (list_set i v l) = map f l.
Proof.
  revert i. induction l as [| a l IH]; intros [| i]; cbn [nth_error list_set map];
    try discriminate.
  - intros [= ->] ->. reflexivity.
  - intros N E. now rewrite (IH i N E).
Qed.

Lemma nth_error_list_set {A} (i j : nat) (v : A) (l : list A) :
  nth_error (list_set i v l) j =
  if Nat.eqb i j then match nth_error l j with
                      | Some _ => Some v
                      | None => None
                      end
  else nth_error l j.
Proof.
  revert i j. induction l as [| a l IH]; intros [| i] [| j];
    cbn [list_set nth_error Nat.eqb]; try reflexivity.
  - now destruct (Nat.eqb _ _).
  - apply IH.
Qed.

(** The methods of a task leave the file alone. *)
Lemma applied_keeps_file (action : Actions) (note : option string)
                         (x : Task) (w : World) :
  file (snd (snd (applied action note (x, w)))) = file w /\
  (action <> NOTE ->
   notes (fst (snd (applied action note (x, w)))) = notes x).
Proof.
  destruct action; cbn [applied].
  - rewrite start_spec.
    destruct (last_opt (times x)) as [[s [e |]] |]; split; reflexivity.
  - rewrite pause_spec. unfold closing.
    destruct (String.eqb (status x) RUNNING); [| split; reflexivity].
    destruct (last_opt (times x)) as [[s [e |]] |]; split; reflexivity.
  - rewrite complete_spec. unfold closing.
    destruct (String.eqb (status x) RUNNING); [| split; reflexivity].
    destruct (last_opt (times x)) as [[s [e |]] |]; split; reflexivity.
  - rewrite add_note_spec. split; [reflexivity | congruence].
Qed.

(** [update_task] once the lookups have succeeded. *)
Lemma update_task_run (fragment : string) (action : Actions)
      (note : option string) (doc : TomlDocument) (w : World)
      (l : list Task) (x : Task) :
  dict_get (isoformat (working_date doc)) (tasks_data doc) = Some l ->
  filter (matches fragment) l = [x] ->
  (action = NOTE -> falsy note = false) ->
  exists i,
    index_where (matches fragment) l = Some i /\
    nth_error l i = Some x /\
    update_task fragment action note (doc, w) =
    match applied action note (x, w) with
    | (Ok _, (x', w')) =>
        (Ok tt,
         (with_task doc (isoformat (working_date doc)) i x' l,
          written (with_task doc (isoformat (working_date doc)) i x' l) w'))
    | (Raise e, (x', w')) =>
        (Raise e, (with_task doc (isoformat (working_date doc)) i x' l, w'))
    end.
Proof.
  intros E F Hn.
  destruct (index_where_filter (matches fragment) l x [] F) as [i [I N]].
  exists i. split; [exact I |]. split; [exact N |].
  unfold update_task, bind at 1, this. cbn [fst snd].
  rewrite E. unfold relevant_task. rewrite F, I.
  assert (forall m : method unit,
            bind (on_task (isoformat (working_date doc)) i m)
                 (fun _ => write) (doc, w) =
            match m (x, w) with
            | (Ok _, (x', w')) =>
                (Ok tt,
                 (with_task doc (isoformat (working_date doc)) i x' l,
                  written (with_task doc (isoformat (working_date doc)) i x' l)
                          w'))
            | (Raise e, (x', w')) =>
                (Raise e,
                 (with_task doc (isoformat (working_date doc)) i x' l, w'))
            end) as Run.
  { intros m. unfold bind, on_task. cbn [fst snd]. rewrite E, N.
    destruct (m (x, w)) as [[[] | e] [x' w']]; reflexivity. }
  destruct action; cbn [applied]; try apply Run.
  rewrite (Hn eq_refl). apply Run.
Qed.

(** X12.  What a lifecycle action or a note does to the store: when exactly
    one task of the working date matches, the method of the action runs on
    that task where it sits.  If it returns, the store is written, the file
    then holding the store with the task as the method left it; if it
    raises, the file is left as it was, though the task keeps what the
    method assigned before raising. *)
Theorem update_task_applies_action (fragment : string) (action : Actions)
        (note : option string) (doc : TomlDocument) (w : World)
        (l : list Task) (x : Task) :
  dict_get (isoformat (working_date doc)) (tasks_data doc) = Some l ->
  filter (matches fragment) l = [x] ->
  (action = NOTE -> falsy note = false) ->
  exists i x' w' r,
    nth_error l i = Some x /\
    applied action note (x, w) = (r, (x', w')) /\
    file w' = file w /\
    dict_get (isoformat (working_date doc))
             (tasks_data (with_task doc (isoformat (working_date doc)) i x' l))
    = Some (list_set i x' l) /\
    update_task fragment action note (doc, w) =
    match r with
    | Ok _ =>
        (Ok tt,
         (with_task doc (isoformat (working_date doc)) i x' l,
          written (with_task doc (isoformat (working_date doc)) i x' l) w'))
    | Raise e =>
        (Raise e, (with_task doc (isoformat (working_date doc)) i x' l, w'))
    end.
Proof.
  intros E F Hn.
  destruct (update_task_run fragment action note doc w l x E F Hn)
    as [i [_ [N U]]].
  pose proof (proj1 (applied_keeps_file action note x w)) as K.
  destruct (applied action note (x, w)) as [r [x' w']] eqn:A.
  exists i, x', w', r. cbn [snd] in K.
  split; [exact N |]. split; [reflexivity |]. split; [exact K |].
  split; [apply dict_get_set_same |]. now destruct r.
Qed.

Lemma update_task_applies_action_witness :
  dict_get (isoformat (working_date two_days)) (tasks_data two_days) =
  Some [fresh] /\
  filter (matches "b9") [fresh] = [fresh] /\
  exists i x' w' r,
    nth_error [fresh] i = Some fresh /\
    applied START None (fresh, morning) = (r, (x', w')) /\
    file w' = file morning /\
    dict_get (isoformat (working_date two_days))
             (tasks_data (with_task two_days
                                    (isoformat (working_date two_days))
                                    i x' [fresh]))
    = Some (list_set i x' [fresh]) /\
    update_task "b9" START None (two_days, morning) =
    match r with
    | Ok _ =>
        (Ok tt,
         (with_task two_days (isoformat (working_date two_days)) i x' [fresh],
          written (with_task two_days (isoformat (working_date two_days))
                             i x' [fresh]) w'))
    | Raise e =>
        (Raise e,
         (with_task two_days (isoformat (working_date two_days)) i x' [fresh],
          w'))
    end.
Proof.
  split; [reflexivity |]. split; [reflexivity |].
  apply (update_task_applies_action "b9" START None two_days morning
                                    [fresh] fresh);
    [reflexivity | reflexivity | discriminate].
Defined.

(** The document [update_task] leaves is the one it found, or that one with
    one task of the working date replaced. *)
Lemma update_task_document (fragment : string) (action : Actions)
      (note : option string) (doc : TomlDocument) (w : World) :
  fst (snd (update_task fragment action note (doc, w))) = doc \/
  exists l i x x',
    dict_get (isoformat (working_date doc)) (tasks_data doc) = Some l /\
    nth_error l i = Some x /\
    (action <> NOTE -> notes x' = notes x) /\
    fst (snd (update_task fragment action note (doc, w))) =
    with_task doc (isoformat (working_date doc)) i x' l.
Proof.
  pose proof (update_task_lookup fragment action note doc w) as U.
  cbv zeta in U.
  destruct (dict_get (isoformat (working_date doc)) (tasks_data doc))
    as [l |] eqn:E; [| left; now rewrite U].
  unfold relevant_task in U.
  destruct (filter (matches fragment) l) as [| x [| y r]] eqn:F;
    [left; now rewrite U | | left; now rewrite U].
  destruct action eqn:A.
  4: destruct (falsy note) eqn:Fn.
  4: { left. unfold update_task, bind at 1, this. cbn [fst snd].
       rewrite E. unfold relevant_task. rewrite F, Fn. reflexivity. }
  all: right.
  all: match goal with
       | |- context [update_task _ ?a _ _] =>
           destruct (update_task_run fragment a note doc w l x E F)
             as [i [_ [N R]]]; [try discriminate; auto |];
           pose proof (proj2 (applied_keeps_file a note x w)) as K;
           destruct (applied a note (x, w)) as [[[] | e] [x' w']];
           cbn [fst snd] in K; exists l, i, x, x';
           (split; [reflexivity |]); (split; [exact N |]);
           (split; [exact K |]); now rewrite R
       end.
Qed.

(** X13.  [update_task] never adds or removes a task or a date, whatever
    its outcome: the working date and the metadata stay, the dates stay in
    their order, every date keeps the number of its tasks, and the tasks of
    every date other than the working date are untouched. *)
Theorem update_task_keeps_shape (fragment : string) (action : Actions)
        (note : option string) (doc : TomlDocument) (w : World) :
  working_date (updated fragment action note doc w) = working_date doc /\
  other_data (updated fragment action note doc w) = other_data doc /\
  map fst (tasks_data (updated fragment action note doc w)) =
  map fst (tasks_data doc) /\
  (forall k,
     option_map (@List.length Task)
                (dict_get k (tasks_data (updated fragment action note doc w)))
     = option_map (@List.length Task) (dict_get k (tasks_data doc))) /\
  (forall k, k <> isoformat (working_date doc) ->
             dict_get k (tasks_data (updated fragment action note doc w)) =
             dict_get k (tasks_data doc)).
Proof.
  unfold updated.
  destruct (update_task_document fragment action note doc w)
    as [-> | [l [i [x [x' [E [N [_ ->]]]]]]]].
  - repeat split.
  - unfold with_task. cbn [working_date other_data tasks_data].
    split; [reflexivity |]. split; [reflexivity |].
    split; [now apply map_fst_dict_set with (v0 := l) |].
    split.
    + intros k.
      destruct (String.eqb (isoformat (working_date doc)) k) eqn:K.
      * apply String.eqb_eq in K. subst k.
        rewrite dict_get_set_same, E. cbn [option_map].
        now rewrite length_list_set.
      * rewrite dict_get_set_other; [reflexivity |].
        now apply String.eqb_neq.
    + intros k Hk. apply dict_get_set_other. congruence.
Qed.

(** X14.  On the command line the flags win over [--action] and
    [--note], [--pause] over [--complete] over [--start]; and when one of
    the three flags is given together with [--note], the text of the note
    is dropped: the action leaves the notes of every task as they were. *)
Theorem flag_drops_the_note (args : Args) (doc : TomlDocument) (w : World) :
  a_start args || a_pause args || a_complete args = true ->
  chosen_action args =
  Some (if a_pause args then PAUSE
        else if a_complete args then COMPLETE else START) /\
  forall k,
    option_map (map notes)
      (dict_get k (tasks_data (fst (snd (apply_action args (doc, w)))))) =
    option_map (map notes) (dict_get k (tasks_data doc)).
Proof.
  intros H.
  assert (chosen_action args =
          Some (if a_pause args then PAUSE
                else if a_complete args then COMPLETE else START)) as C.
  { unfold chosen_action.
    destruct (a_pause args); [reflexivity |].
    destruct (a_complete args); [reflexivity |].
    destruct (a_start args); [reflexivity | discriminate]. }
  split; [exact C |]. intros k. unfold apply_action. rewrite C.
  destruct (negb (falsy (a_task args))); [| reflexivity].
  set (a := if a_pause args then PAUSE
            else if a_complete args then COMPLETE else START).
  assert (a <> NOTE) as An
    by (unfold a; destruct (a_pause args), (a_complete args); discriminate).
  destruct (update_task_document (str_opt (a_task args)) a (a_note args) doc w)
    as [-> | [l [i [x [x' [E [N [Hx ->]]]]]]]]; [reflexivity |].
  unfold with_task. cbn [tasks_data].
  destruct (String.eqb (isoformat (working_date doc)) k) eqn:K.
  - apply String.eqb_eq in K. subst k.
    rewrite dict_get_set_same, E. cbn [option_map]. f_equal.
    apply map_list_set with (x := x); [exact N | now apply Hx].
  - rewrite dict_get_set_other; [reflexivity |]. now apply String.eqb_neq.
Qed.

Lemma flag_drops_the_note_witness :
  a_start noted_start || a_pause noted_start || a_complete noted_start = true
  /\
  chosen_action noted_start = Some START /\
  option_map (map notes)
    (dict_get "2024-07-04"
       (tasks_data (fst (snd (apply_action noted_start (two_days, morning))))))
  = Some [[]] /\
  option_map (map status)
    (dict_get "2024-07-04"
       (tasks_data (fst (snd (apply_action noted_start (two_days, morning))))))
  = Some [RUNNING].
Proof.
  split; [reflexivity |].
  destruct (flag_drops_the_note noted_start two_days morning eq_refl)
    as [C N].
  split; [exact C |]. split; [apply N | reflexivity].
Defined.

Lemma add_task_run (fresh_id description : string) (date : datetime.date)
      (doc : TomlDocument) (w : World) :
  exists doc',
    add_task fresh_id description date (doc, w) =
    (Ok tt, (doc', printed ("task added: " ++ fresh_id) (written doc' w))) /\
    working_date doc' = working_date doc /\
    other_data doc' = other_data doc /\
    dict_get (isoformat date) (tasks_data doc') =
    Some (tasks_on (isoformat date) doc ++
          [created fresh_id description])%list /\
    forall k, k <> isoformat date ->
              dict_get k (tasks_data doc') = dict_get k (tasks_data doc).
Proof.
  exists (mkDoc (working_date doc) (other_data doc)
                (dict_set (isoformat date)
                          (tasks_on (isoformat date) doc ++
                           [created fresh_id description])%list
                          (tasks_data doc))).
  split; [reflexivity |].
  cbn [working_date other_data tasks_data].
  split; [reflexivity |]. split; [reflexivity |].
  split; [apply dict_get_set_same |].
  intros k Hk. apply dict_get_set_other. congruence.
Qed.

(** X15.  [add_task] puts the new task, created and without intervals or
    notes, at the end of the list of its date, starting the list when the
    date has none; the tasks of every other date stay; the file is
    rewritten from the store so extended and the identifier is printed. *)
Theorem add_task_appends (fresh_id description : string) (date : datetime.date)
        (doc : TomlDocument) (w : World) :
  exists doc',
    add_task fresh_id description date (doc, w) =
    (Ok tt, (doc', printed ("task added: " ++ fresh_id) (written doc' w))) /\
    working_date doc' = working_date doc /\
    other_data doc' = other_data doc /\
    dict_get (isoformat date) (tasks_data doc') =
    Some (tasks_on (isoformat date) doc ++
          [created fresh_id description])%list /\
    forall k, k <> isoformat date ->
              dict_get k (tasks_data doc') = dict_get k (tasks_data doc).
Proof. apply add_task_run. Qed.

Lemma contains_self (a : string) : contains a a = true.
Proof.
  apply contains_spec. exists "", "". cbn [append].
  induction a as [| c a IH]; [reflexivity |]. cbn [append]. now f_equal.
Qed.

Lemma filter_none {A} (p : A -> bool) (l : list A) :
  forallb (fun a => negb (p a)) l = true -> filter p l = [].
Proof.
  induction l as [| a l IH]; [reflexivity |]. cbn [forallb filter].
  intros H. apply andb_true_iff in H. destruct H as [Ha Hl].
  apply negb_true_iff in Ha. rewrite Ha. auto.
Qed.

Lemma index_where_last {A} (p : A -> bool) (l : list A) (x : A) :
  forallb (fun a => negb (p a)) l = true -> p x = true ->
  index_where p (l ++ [x]) = Some (List.length l).
Proof.
  intros H Px. induction l as [| a l IH]; cbn [app index_where List.length].
  - now rewrite Px.
  - cbn [forallb] in H. apply andb_true_iff in H. destruct H as [Ha Hl].
    apply negb_true_iff in Ha. now rewrite Ha, IH.
Qed.

Lemma list_set_last {A} (l : list A) (x v : A) :
  list_set (List.length l) v (l ++ [x]) = (l ++ [v])%list.
Proof.
  induction l as [| a l IH]; [reflexivity |].
  cbn [List.length app list_set]. now rewrite IH.
Qed.

(** X16.  A task that was just added can be started by its identifier:
    when no task already on the working date has an identifier that
    contains the new one, [add_task] for the working date followed by
    [update_task] with the whole identifier and [START] leaves the new task
    last in the list of the date, running, with one open interval that
    starts at the reading of the clock. *)
Theorem added_task_can_be_started (fresh_id description : string)
        (doc : TomlDocument) (w : World) :
  forallb (fun t => negb (matches fresh_id t))
          (tasks_on (isoformat (working_date doc)) doc) = true ->
  exists doc1 w1 doc2 w2,
    add_task fresh_id description (working_date doc) (doc, w) =
    (Ok tt, (doc1, w1)) /\
    update_task fresh_id START None (doc1, w1) = (Ok tt, (doc2, w2)) /\
    dict_get (isoformat (working_date doc)) (tasks_data doc2) =
    Some (tasks_on (isoformat (working_date doc)) doc ++
          [moved (created fresh_id description) RUNNING
                 [(clock w (ticks w), None)]])%list /\
    file w2 = serialized_data doc2.
Proof.
  intros H.
  destruct (add_task_run fresh_id description (working_date doc) doc w)
    as [doc1 [A [Wd [_ [G _]]]]].
  assert (matches fresh_id (created fresh_id description) = true) as Mx
    by (unfold matches; cbn [uuid created str_uuid]; apply contains_self).
  assert (filter (matches fresh_id)
                 (tasks_on (isoformat (working_date doc)) doc ++
                  [created fresh_id description]) =
          [created fresh_id description]) as F
    by (rewrite filter_app, (filter_none _ _ H); cbn [filter app];
        now rewrite Mx).
  assert (dict_get (isoformat (working_date doc1)) (tasks_data doc1) =
          Some (tasks_on (isoformat (working_date doc)) doc ++
                [created fresh_id description])%list) as G1
    by (rewrite Wd; exact G).
  destruct (update_task_run fresh_id START None doc1
              (printed ("task added: " ++ fresh_id) (written doc1 w))
              _ _ G1 F) as [i [I [N U]]]; [discriminate |].
  rewrite (index_where_last _ _ _ H Mx) in I. injection I as <-.
  cbn [applied] in U. rewrite start_spec in U.
  cbn [created times last_opt rev] in U.
  eexists. eexists. eexists. eexists.
  split; [exact A |]. split; [exact U |].
  split; [| reflexivity].
  unfold with_task. cbn [tasks_data]. rewrite Wd, dict_get_set_same.
  now rewrite list_set_last.
Qed.

Lemma added_task_can_be_started_witness :
  forallb (fun t => negb (matches "c3e8" t))
          (tasks_on (isoformat (working_date two_days)) two_days) = true /\
  exists doc1 w1 doc2 w2,
    add_task "c3e8" "Call back" (working_date two_days) (two_days, morning) =
    (Ok tt, (doc1, w1)) /\
    update_task "c3e8" START None (doc1, w1) = (Ok tt, (doc2, w2)) /\
    dict_get (isoformat (working_date two_days)) (tasks_data doc2) =
    Some (tasks_on (isoformat (working_date two_days)) two_days ++
          [moved (created "c3e8" "Call back") RUNNING
                 [(clock morning (ticks morning), None)]])%list /\
    file w2 = serialized_data doc2.
Proof.
  split; [reflexivity |].
  apply (added_task_can_be_started "c3e8" "Call back" two_days morning).
  reflexivity.
Defined.

Lemma errors_run (doc : TomlDocument) (w : World) :
  errors (doc, w) =
  match collect_errors (today_key w) (tasks_data doc) with
  | [] => (Ok tt, (doc, printed "No errors found" (after_reads 1 w)))
  | (date, _) :: _ =>
      (Raise (AttributeError "'Task' object has no attribute 'report'"),
       (doc, printed (date_header date) (after_reads 1 w)))
  end.
Proof.
  unfold errors, bind, this, lift_snd, now_utc, today_key. cbn [fst snd].
  pose proof (collect_errors_nonempty
                (isoformat (date_of (clock w (ticks w)))) (tasks_data doc))
    as N.
  destruct (collect_errors _ _) as [| [date errs] rest]; [reflexivity |].
  inversion N as [| ? ? Hne _]; subst. cbn [snd] in Hne.
  destruct errs as [| t errs]; [congruence | reflexivity].
Qed.

Lemma filter_stale_nil (ts : list Task) :
  filter stale ts = [] <-> forallb completed ts = true.
Proof.
  induction ts as [| t ts IH]; cbn [filter forallb]; [tauto |].
  unfold stale at 1, completed at 1.
  destruct (String.eqb (status t) COMPLETED); cbn [negb andb].
  - exact IH.
  - split; discriminate.
Qed.

Lemma dict_all_absent {V} (d : dict V) :
  (forall k, dict_get k d = None) -> d = [].
Proof.
  destruct d as [| [k v] d]; [reflexivity |]. intros H.
  specialize (H k). cbn [dict_get] in H. rewrite String.eqb_refl in H.
  discriminate.
Qed.

Lemma flagged_none_iff (today : string) (data : dict (list Task)) :
  NoDup (map fst data) ->
  (forall date, flagged today date data = None) <->
  nothing_stale today data = true.
Proof.
  intros ND. unfold nothing_stale. rewrite forallb_forall. split.
  - intros H [k ts] I. cbn [fst snd].
    destruct (String.eqb k today) eqn:K; [reflexivity |]. cbn [orb].
    specialize (H k). unfold flagged in H. rewrite K in H.
    assert (dict_get k data = Some ts) as G.
    { clear H K. induction data as [| [k' v'] data IH]; [contradiction |].
      cbn [map fst] in ND. inversion ND as [| ? ? Hk ND']; subst.
      cbn [dict_get]. destruct I as [[= -> ->] | I].
      - now rewrite String.eqb_refl.
      - destruct (String.eqb k' k) eqn:K'.
        + apply String.eqb_eq in K'. subst k'. exfalso. apply Hk.
          now apply (in_map fst) in I.
        + now apply IH. }
    rewrite G in H. apply filter_stale_nil.
    now destruct (filter stale ts).
  - intros H date. unfold flagged.
    destruct (String.eqb date today) eqn:T; [reflexivity |].
    destruct (dict_get date data) as [ts |] eqn:G; [| reflexivity].
    assert (In (date, ts) data) as I.
    { clear H ND T. induction data as [| [k' v'] data IH]; [discriminate |].
      cbn [dict_get] in G. destruct (String.eqb k' date) eqn:K'.
      - apply String.eqb_eq in K'. injection G as ->. subst. now left.
      - right. now apply IH. }
    specialize (H _ I). cbn [fst snd] in H. rewrite T in H. cbn [orb] in H.
    apply filter_stale_nil in H. now rewrite H.
Qed.

(** X17.  The error scan returns, printing that no errors were found,
    exactly when every date of the store other than today holds completed
    tasks only; otherwise it raises. *)
Theorem errors_returns_iff_nothing_stale (doc : TomlDocument) (w : World) :
  NoDup (map fst (tasks_data doc)) ->
  (nothing_stale (today_key w) (tasks_data doc) = true ->
   errors (doc, w) =
   (Ok tt, (doc, printed "No errors found" (after_reads 1 w)))) /\
  (nothing_stale (today_key w) (tasks_data doc) = false ->
   exists msg s', errors (doc, w) = (Raise (AttributeError msg), s')).
Proof.
  intros ND. rewrite errors_run.
  assert (collect_errors (today_key w) (tasks_data doc) = [] <->
          nothing_stale (today_key w) (tasks_data doc) = true) as K.
  { rewrite <- (flagged_none_iff _ _ ND). split.
    - intros E date. rewrite <- (collect_errors_lookup _ _ _ ND).
      now rewrite E.
    - intros H. apply dict_all_absent. intros k.
      now rewrite (collect_errors_lookup _ _ _ ND). }
  split.
  - intros H. apply K in H. now rewrite H.
  - intros H. destruct (collect_errors _ _) as [| [date errs] rest].
    + rewrite (proj1 K eq_refl) in H. discriminate.
    + eauto.
Qed.

Lemma errors_returns_iff_nothing_stale_witness :
  NoDup (map fst (tasks_data tidy_days)) /\
  nothing_stale (today_key morning) (tasks_data tidy_days) = true /\
  errors (tidy_days, morning) =
  (Ok tt, (tidy_days, printed "No errors found" (after_reads 1 morning))) /\
  nothing_stale (today_key morning) (tasks_data two_days) = false /\
  exists msg s', errors (two_days, morning) = (Raise (AttributeError msg), s').
Proof.
  assert (NoDup (map fst (tasks_data tidy_days))) as ND
    by (apply distinct_NoDup; reflexivity).
  assert (NoDup (map fst (tasks_data two_days))) as ND'
    by (apply distinct_NoDup; reflexivity).
  split; [exact ND |]. split; [reflexivity |].
  split; [apply (errors_returns_iff_nothing_stale tidy_days morning ND);
          reflexivity |].
  split; [reflexivity |].
  apply (errors_returns_iff_nothing_stale two_days morning ND'). reflexivity.
Defined.

Lemma days_in_month_ge_28 (y m : Z) : 1 <= m <= 12 -> 28 <= days_in_month y m.
Proof.
  intros H. unfold days_in_month.
  assert (m = 1 \/ m = 2 \/ m = 3 \/ m = 4 \/ m = 5 \/ m = 6 \/ m = 7 \/
          m = 8 \/ m = 9 \/ m = 10 \/ m = 11 \/ m = 12) as C by lia.
  repeat (destruct C as [-> | C]; [try lia; destruct (is_leap y); lia |]).
  subst. lia.
Qed.

(** X18.  The month of the monthly report: for a working date before
    December 9999, a date of the store passes the test of [report_monthly]
    and [monthly_pdf] exactly when it has the year and the month of the
    working date; for a working date in December 9999 the end of the month
    cannot be computed and the report fails. *)
Theorem in_working_month_iff (working_date iso_date : datetime.date) :
  valid_date working_date = true -> valid_date iso_date = true ->
  in_working_month working_date iso_date =
  if (d_year working_date =? 9999) && (d_month working_date =? 12)
  then None
  else Some ((d_year iso_date =? d_year working_date) &&
             (d_month iso_date =? d_month working_date)).
Proof.
  unfold valid_date. intros Hw Hd. bool_to_prop Hw. bool_to_prop Hd.
  unfold in_working_month, in_window, month_start, plus_one_month.
  cbn [d_year d_month d_day].
  destruct (12 <? d_month working_date + 1) eqn:Dec.
  - apply Z.ltb_lt in Dec.
    assert (d_month working_date = 12) as M by lia. rewrite M.
    replace (12 =? 12) with true by reflexivity. rewrite andb_true_r.
    destruct (9999 <? d_year working_date + 1) eqn:Y.
    + apply Z.ltb_lt in Y.
      replace (d_year working_date =? 9999) with true
        by (symmetry; apply Z.eqb_eq; lia). reflexivity.
    + apply Z.ltb_ge in Y.
      replace (d_year working_date =? 9999) with false
        by (symmetry; apply Z.eqb_neq; lia).
      f_equal. unfold date_leb, date_ltb, date_leb.
      cbn [d_year d_month d_day].
      replace (12 + 1 - 12) with 1 by lia.
      replace (Z.min (days_in_month (d_year working_date + 1) 1) 1) with 1
        by (cbn; lia).
      destruct (d_year iso_date =? d_year working_date) eqn:E1;
        destruct (d_month iso_date =? 12) eqn:E2;
        repeat match goal with
               | E : (_ =? _) = true |- _ => apply Z.eqb_eq in E
               | E : (_ =? _) = false |- _ => apply Z.eqb_neq in E
               end;
        cbn [andb];
        repeat match goal with
               | |- context [?a <? ?b] =>
                   destruct (Z.ltb_spec a b); cbn [orb andb negb]
               | |- context [?a =? ?b] =>
                   destruct (Z.eqb_spec a b); cbn [orb andb negb]
               | |- context [?a <=? ?b] =>
                   destruct (Z.leb_spec a b); cbn [orb andb negb]
               end; try reflexivity; lia.
  - apply Z.ltb_ge in Dec.
    replace (d_month working_date =? 12) with false
      by (symmetry; apply Z.eqb_neq; lia). rewrite andb_false_r.
    replace (9999 <? d_year working_date) with false
      by (symmetry; apply Z.ltb_ge; lia).
    f_equal. unfold date_leb, date_ltb, date_leb.
    cbn [d_year d_month d_day].
    replace (Z.min (days_in_month (d_year working_date)
                                  (d_month working_date + 1)) 1) with 1
      by (pose proof (days_in_month_ge_28 (d_year working_date)
                        (d_month working_date + 1)); lia).
    destruct (d_year iso_date =? d_year working_date) eqn:E1;
      destruct (d_month iso_date =? d_month working_date) eqn:E2;
      repeat match goal with
             | E : (_ =? _) = true |- _ => apply Z.eqb_eq in E
             | E : (_ =? _) = false |- _ => apply Z.eqb_neq in E
             end;
      cbn [andb];
      repeat match goal with
             | |- context [?a <? ?b] =>
                 destruct (Z.ltb_spec a b); cbn [orb andb negb]
             | |- context [?a =? ?b] =>
                 destruct (Z.eqb_spec a b); cbn [orb andb negb]
             | |- context [?a <=? ?b] =>
                 destruct (Z.leb_spec a b); cbn [orb andb negb]
             end; try reflexivity; lia.
Qed.

Lemma in_working_month_iff_witness :
  valid_date (mkdate 2024 7 15) = true /\
  valid_date (mkdate 2024 7 31) = true /\
  in_working_month (mkdate 2024 7 15) (mkdate 2024 7 31) = Some true /\
  in_working_month (mkdate 2024 7 15) (mkdate 2024 8 1) = Some false /\
  in_working_month (mkdate 2024 7 15) (mkdate 2024 6 30) = Some false /\
  in_working_month (mkdate 9999 12 1) (mkdate 9999 12 1) = None.
Proof.
  split; [reflexivity |]. split; [reflexivity |].
  split; [apply (in_working_month_iff (mkdate 2024 7 15) (mkdate 2024 7 31));
          reflexivity |].
  split; [apply (in_working_month_iff (mkdate 2024 7 15) (mkdate 2024 8 1));
          reflexivity |].
  split; [apply (in_working_month_iff (mkdate 2024 7 15) (mkdate 2024 6 30));
          reflexivity |].
  apply (in_working_month_iff (mkdate 9999 12 1) (mkdate 9999 12 1));
    reflexivity.
Defined.

End MoreStore.

(** ** Properties of the reports *)

Section MoreReports.
Import datetime tasks tasks.TaskStates toml tasks.TomlHelper main.
Import tasks_text main_more spec more.

Variable str_float : Q -> string.
Variable float_total : list Q -> string.
Variable json_dumps : list toml_dict -> string.

Lemma ends_or_now_closed_pairs (c : nat -> datetime.t) (l : list interval) :
  forallb is_closed l = true ->
  forall k, ends_or_now c k l = closed_pairs l /\ opened l = 0%nat.
Proof.
  induction l as [| [s [e |]] l IH]; cbn [forallb]; intros H k.
  - now split.
  - cbn [is_closed is_open snd negb andb] in H.
    destruct (IH H k) as [R O]. unfold closed_pairs in *.
    cbn [ends_or_now flat_map fst snd app]. rewrite R. split; [reflexivity |].
    unfold opened in *. cbn [filter is_open snd]. exact O.
  - discriminate.
Qed.

Lemma call_minutes_settled (t : Task) (w : World) :
  settled t = true -> call minutes t w = (Ok (settled_minutes t), w).
Proof.
  unfold settled. intros H. apply andb_true_iff in H. destruct H as [C D].
  destruct (ends_or_now_closed_pairs (clock w) _ C (ticks w)) as [R O].
  unfold call. rewrite minutes_run_ok by (unfold resolved; now rewrite R).
  unfold resolved, settled_minutes. rewrite R, O. now rewrite after_reads_0.
Qed.

Lemma call_terminal_report_settled (t : Task) (w : World) :
  settled t = true ->
  call (terminal_report str_float) t w =
  (Ok (report_line str_float false t (settled_minutes t)), w) /\
  call (terminal_report_with_uuid str_float) t w =
  (Ok (report_line str_float true t (settled_minutes t)), w).
Proof.
  intros H. pose proof (call_minutes_settled t w H) as M.
  unfold call in *.
  assert (terminal_report str_float (t, w) =
          (Ok (report_line str_float false t (settled_minutes t)), (t, w)))
    as T.
  { unfold terminal_report, bind, self, ret. cbn [fst snd].
    destruct (minutes (t, w)) as [[m |] [t' w']] eqn:Mi; [| discriminate].
    injection M as -> ->.
    assert (t' = t) as ->.
    { unfold settled in H. apply andb_true_iff in H. destruct H as [C D].
      destruct (ends_or_now_closed_pairs (clock w) _ C (ticks w)) as [R O].
      rewrite minutes_run_ok in Mi by (unfold resolved; now rewrite R).
      congruence. }
    unfold report_line, notes_text, completed. cbn [append].
    destruct (String.eqb (status t) COMPLETED);
      destruct (join newline _); reflexivity. }
  split.
  - now rewrite T.
  - unfold terminal_report_with_uuid, bind, self, ret. cbn [fst snd].
    rewrite T. reflexivity.
Qed.

Lemma report_lines_settled (with_uuid : bool) (ts : list Task) :
  forallb settled ts = true ->
  forall (ms : list Q) (w : World),
    report_lines str_float (if with_uuid then "terminal" else "email")
                 ts ms w =
    (Returned, (ms ++ map settled_minutes ts)%list,
     printed_all
       (map (fun t => report_line str_float with_uuid t (settled_minutes t))
            ts) w).
Proof.
  induction ts as [| t ts IH]; cbn [forallb]; intros H ms w.
  - cbn [report_lines map]. rewrite app_nil_r. unfold printed_all.
    rewrite app_nil_r. now destruct w.
  - apply andb_true_iff in H. destruct H as [Ht Hts].
    destruct (call_terminal_report_settled t w Ht) as [E U].
    cbn [report_lines map].
    destruct with_uuid.
    + replace (String.eqb "terminal" "email") with false by reflexivity.
      replace (String.eqb "terminal" "terminal") with true by reflexivity.
      rewrite U. unfold print, modify. cbn [snd].
      rewrite call_minutes_settled by exact Ht.
      rewrite (IH Hts). unfold printed_all.
      cbn [clock ticks stdout file]. now rewrite <- !app_assoc.
    + replace (String.eqb "email" "email") with true by reflexivity.
      rewrite E. unfold print, modify. cbn [snd].
      rewrite call_minutes_settled by exact Ht.
      rewrite (IH Hts). unfold printed_all.
      cbn [clock ticks stdout file]. now rewrite <- !app_assoc.
Qed.

(** X19.  The daily report of a day whose tasks have closed intervals
    only, none changing day: it prints one line per task, in the order of the
    store (with the identifier in front for [terminal], without it for
    [email]), then the line of the total of their minutes; it returns, reads
    the clock not once and leaves the store and the file alone. *)
Theorem report_daily_of_settled_day (with_uuid : bool) (doc : TomlDocument)
        (w : World) (ts : list Task) :
  dict_get (isoformat (working_date doc)) (tasks_data doc) = Some ts ->
  forallb settled ts = true ->
  report_daily str_float float_total json_dumps
               (if with_uuid then "terminal" else "email") doc w =
  (Returned,
   printed_all
     (map (fun t => report_line str_float with_uuid t (settled_minutes t)) ts
      ++ [total_line float_total (map settled_minutes ts)]) w).
Proof.
  intros E H. unfold report_daily.
  replace (String.eqb (if with_uuid then "terminal" else "email") "json")
    with false by now destruct with_uuid.
  rewrite E, (report_lines_settled with_uuid ts H). cbn [app].
  unfold print, modify, printed_all. cbn [snd clock ticks stdout file].
  now rewrite <- app_assoc.
Qed.

(** X20.  A format that is neither [json], [email] nor [terminal] is only
    refused when there is a task to print: without a list for the working
    date the report says that no tasks were found, with an empty list it
    prints a total of zero, and with a task it raises [NotImplementedError]
    before anything is printed. *)
Theorem report_daily_unsupported_format (output_format : string)
        (doc : TomlDocument) (w : World) :
  String.eqb output_format "json" = false ->
  String.eqb output_format "email" = false ->
  String.eqb output_format "terminal" = false ->
  report_daily str_float float_total json_dumps output_format doc w =
  match dict_get (isoformat (working_date doc)) (tasks_data doc) with
  | None => (Returned, printed "No tasks found" w)
  | Some [] => (Returned, printed "Total time: 0 Hrs 0 minutes" w)
  | Some (_ :: _) =>
      (Failed (NotImplementedError
                 ("Output format: " ++ output_format ++ " not supported")), w)
  end.
Proof.
  intros J E T. unfold report_daily. rewrite J.
  destruct (dict_get _ _) as [[| t ts] |]; [reflexivity | | reflexivity].
  cbn [report_lines]. now rewrite E, T.
Qed.

(** X25.  A task whose interval changes day stops the daily report: when
    the first task of the working date has an interval that ends (an open
    one: at the reading of the clock) on another day than it starts,
    [report_daily] with the format [terminal] or [email] fails with the
    [RuntimeError] of [minutes] and prints nothing. *)
Theorem report_daily_fails_on_day_change (with_uuid : bool)
        (doc : TomlDocument) (w : World) (t : Task) (ts : list Task) :
  dict_get (isoformat (working_date doc)) (tasks_data doc) = Some (t :: ts) ->
  forallb same_day (resolved t w) = false ->
  exists n,
    report_daily str_float float_total json_dumps
                 (if with_uuid then "terminal" else "email") doc w =
    (Failed (Raised (RuntimeError same_day_msg)), after_reads n w).
Proof.
  intros E H. destruct (minutes_run_raises t w H) as [n R]. exists n.
  unfold report_daily.
  replace (String.eqb (if with_uuid then "terminal" else "email") "json")
    with false by now destruct with_uuid.
  rewrite E. cbn [report_lines].
  assert (call (terminal_report str_float) t w =
          (Raise (RuntimeError same_day_msg), after_reads n w)) as T
    by (unfold call, terminal_report, bind, self; cbn [fst snd];
        now rewrite R).
  assert (call (terminal_report_with_uuid str_float) t w =
          (Raise (RuntimeError same_day_msg), after_reads n w)) as U
    by (unfold call, terminal_report_with_uuid, terminal_report, bind, self;
        cbn [fst snd]; now rewrite R).
  destruct with_uuid.
  - replace (String.eqb "terminal" "email") with false by reflexivity.
    replace (String.eqb "terminal" "terminal") with true by reflexivity.
    now rewrite U.
  - replace (String.eqb "email" "email") with true by reflexivity.
    now rewrite T.
Qed.

Variable fromisoformat : string -> option datetime.date.

Lemma month_tasks_returned (ts : list Task) (ms ms' : list Q) (w w' : World) :
  month_tasks ts ms w = (Returned, ms', w') -> ts = [].
Proof.
  destruct ts as [| t ts]; [reflexivity |]. cbn [month_tasks].
  destruct (call minutes t w) as [[m | e] w1]; [| discriminate].
  unfold call, report, raise. discriminate.
Qed.

Lemma month_items_returned (start end_ : datetime.date)
      (items : dict (list Task)) :
  forall (ms ms' : list Q) (w w' : World),
    month_items fromisoformat start end_ items ms w = (Returned, ms', w') ->
    Forall (fun kv : string * list Task =>
              forall d, fromisoformat (fst kv) = Some d ->
                        in_window start end_ d = true -> snd kv = [])
           items.
Proof.
  induction items as [| [k ts] items IH]; intros ms ms' w w' H;
    constructor.
  - cbn [fst snd]. intros d F I. cbn [month_items] in H. rewrite F, I in H.
    destruct (month_tasks ts ms (snd (print k w))) as [[[| e] ms1] w1] eqn:M;
      [| discriminate].
    now apply month_tasks_returned in M.
  - cbn [month_items] in H.
    destruct (fromisoformat k) as [d |]; [| discriminate].
    destruct (in_window start end_ d).
    + destruct (month_tasks ts ms (snd (print k w))) as [[[| e] ms1] w1];
        [| discriminate].
      now apply IH in H.
    + now apply IH in H.
Qed.

(** When the monthly report returns, every date of the store that lies in
    the working month has an empty list of tasks. *)
Lemma report_monthly_returned_empty (doc : TomlDocument) (w w' : World) :
  report_monthly fromisoformat float_total doc w = (Returned, w') ->
  forall date_str ts d,
    In (date_str, ts) (tasks_data doc) ->
    fromisoformat date_str = Some d ->
    in_working_month (working_date doc) d = Some true ->
    ts = [].
Proof.
  unfold report_monthly, in_working_month. cbv zeta.
  destruct (plus_one_month (month_start (working_date doc))) as [end_ |];
    [| discriminate].
  destruct (month_items _ _ _ _ _ _) as [[[| e] ms] w1] eqn:M;
    [| discriminate].
  intros _ date_str ts d I F [= W].
  apply month_items_returned in M. rewrite Forall_forall in M.
  exact (M _ I d F W).
Qed.

(** X21.  The monthly report cannot list a task: as soon as a date of the
    store that lies in the working month has a task, [report_monthly] fails
    (at the first such task, with the error of its [minutes] or with the
    [AttributeError] of the call of [report], unless a date key before it
    is no date). *)
Theorem report_monthly_fails_on_a_task (doc : TomlDocument) (w : World)
        (date_str : string) (t : Task) (ts : list Task) (d : datetime.date) :
  In (date_str, t :: ts) (tasks_data doc) ->
  fromisoformat date_str = Some d ->
  in_working_month (working_date doc) d = Some true ->
  exists e w', report_monthly fromisoformat float_total doc w = (Failed e, w').
Proof.
  intros I F W.
  destruct (report_monthly fromisoformat float_total doc w) as [[| e] w']
    eqn:R; [| eauto].
  pose proof (report_monthly_returned_empty doc w w' R _ _ _ I F W).
  discriminate.
Qed.

End MoreReports.

Section MoreReportsWitnesses.
Import more.

Lemma report_daily_of_settled_day_witness :
  dict_get (datetime.isoformat (main.working_date tidy_yesterday))
           (main.tasks_data tidy_yesterday) = Some [spec.finished] /\
  forallb settled [spec.finished] = true /\
  main_more.report_daily as_fraction as_total as_json "terminal"
                         tidy_yesterday spec.morning =
  (main_more.Returned,
   printed_all ["a2c7 - Write report: 1800/60 "; "Total time: 1800/60"]
               spec.morning).
Proof.
  split; [reflexivity |]. split; [reflexivity |].
  apply (report_daily_of_settled_day as_fraction as_total as_json true
           tidy_yesterday spec.morning [spec.finished]); reflexivity.
Defined.

Lemma report_daily_unsupported_format_witness :
  String.eqb "pdf" "json" = false /\ String.eqb "pdf" "email" = false /\
  String.eqb "pdf" "terminal" = false /\
  main_more.report_daily as_fraction as_total as_json "pdf"
                         tidy_yesterday spec.morning =
  (main_more.Failed (main_more.NotImplementedError
                       "Output format: pdf not supported"), spec.morning) /\
  main_more.report_daily as_fraction as_total as_json "pdf"
                         quiet_month spec.morning =
  (main_more.Returned,
   spec.printed "Total time: 0 Hrs 0 minutes" spec.morning) /\
  main_more.report_daily as_fraction as_total as_json "pdf"
                         spec.no_list_today spec.morning =
  (main_more.Returned, spec.printed "No tasks found" spec.morning).
Proof.
  split; [reflexivity |]. split; [reflexivity |]. split; [reflexivity |].
  split; [| split].
  - apply (report_daily_unsupported_format as_fraction as_total as_json
             "pdf" tidy_yesterday spec.morning); reflexivity.
  - apply (report_daily_unsupported_format as_fraction as_total as_json
             "pdf" quiet_month spec.morning); reflexivity.
  - apply (report_daily_unsupported_format as_fraction as_total as_json
             "pdf" spec.no_list_today spec.morning); reflexivity.
Defined.

Lemma report_monthly_fails_on_a_task_witness :
  In ("2024-07-03", [spec.left_running; spec.finished])
     (main.tasks_data spec.two_days) /\
  read_date "2024-07-03" = Some (datetime.mkdate 2024 7 3) /\
  main_more.in_working_month (main.working_date spec.two_days)
                             (datetime.mkdate 2024 7 3) = Some true /\
  (exists e w',
     main_more.report_monthly read_date as_total spec.two_days spec.morning =
     (main_more.Failed e, w')) /\
  main_more.report_monthly read_date as_total quiet_month spec.morning =
  (main_more.Returned,
   printed_all ["2024-07-04"; "Total time: 0 Hrs 0 minutes"] spec.morning).
Proof.
  assert (In ("2024-07-03", [spec.left_running; spec.finished])
             (main.tasks_data spec.two_days)) as I by now left.
  split; [exact I |]. split; [reflexivity |]. split; [reflexivity |].
  split; [| reflexivity].
  exact (report_monthly_fails_on_a_task
           as_total read_date spec.two_days spec.morning
           "2024-07-03" spec.left_running [spec.finished]
           (datetime.mkdate 2024 7 3) I eq_refl eq_refl).
Defined.

Lemma report_daily_fails_on_day_change_witness :
  dict_get (datetime.isoformat (main.working_date spec.yesterday))
           (main.tasks_data spec.yesterday) =
  Some [spec.left_running; spec.finished] /\
  forallb spec.same_day (spec.resolved spec.left_running spec.morning) = false
  /\
  exists n,
    main_more.report_daily as_fraction as_total as_json "terminal"
                           spec.yesterday spec.morning =
    (main_more.Failed (main_more.Raised (RuntimeError tasks.same_day_msg)),
     spec.after_reads n spec.morning).
Proof.
  split; [reflexivity |]. split; [reflexivity |].
  apply (report_daily_fails_on_day_change as_fraction as_total as_json true
           spec.yesterday spec.morning spec.left_running [spec.finished]);
    reflexivity.
Defined.

End MoreReportsWitnesses.

(** ** Properties of the text for the typeset report *)

Section MoreText.
Import tasks tasks_text more.






Lemma lstrip_all_space (s : string) : all_space s = true -> lstrip s = "".
Proof.
  induction s as [| c s IH]; [reflexivity |]. cbn [all_space lstrip].
  intros H. apply andb_true_iff in H. destruct H as [Hc Hs].
  rewrite Hc. now apply IH.
Qed.

(** X23.  A sentence of white space only, the empty one included, becomes
    the empty text. *)
Theorem tex_clean_up_blank (sentence : string) :
  all_space sentence = true -> tex_clean_up sentence = "".
Proof.
  intros H. unfold tex_clean_up, strip.
  now rewrite (lstrip_all_space sentence H).
Qed.

Lemma tex_clean_up_blank_witness :
  all_space (String " " (String (ascii_of_nat 9) " ")) = true /\
  tex_clean_up (String " " (String (ascii_of_nat 9) " ")) = "".
Proof.
  split; [reflexivity |].
  apply (tex_clean_up_blank (String " " (String (ascii_of_nat 9) " "))).
  reflexivity.
Defined.





End MoreText.
